(** * create-expo-jmobile: the project generation engine of [index.js]

    [index.js] is one asynchronous function, [run]: it asks six questions,
    derives a colour palette, writes a fixed family of templated files whose
    selection depends on two of the answers, and edits two JSON manifests.

    The embedding follows [run] top to bottom:
    - [Js]: the JavaScript string primitives [run] calls;
    - [validate], [prompts]: the question sequence and its name validator;
    - [colors]: the palette;
    - the templates, one definition per template literal, under the name the
      source gives it;
    - [steps], [plan]: the directory and file operations in source order;
    - [Json], [set_scheme], [set_main]: the two manifest edits;
    - [dependencies], [Fs], [report]: the packages installed, the file
      system the operations run on, and the closing report.

    Strings are Rocq [string]s, that is sequences of bytes.  JavaScript strings
    are sequences of UTF-16 code units; the two agree on ASCII text, which is
    all that the validated app name, the font names and the templates hold. *)

From Stdlib Require Import String Ascii List Bool Arith Lia.
Import ListNotations.
Open Scope list_scope.
Open Scope string_scope.

(** ** JavaScript primitives *)

Module Js.

Definition code (c : ascii) : nat := nat_of_ascii c.

(** One item of a regular-expression character class: a range [lo-hi] or a
    single character. *)
Inductive ClassItem : Type :=
| CRange (lo hi : ascii)
| CChar (c : ascii).

Definition item_matches (i : ClassItem) (c : ascii) : bool :=
  match i with
  | CRange lo hi => (code lo <=? code c)%nat && (code c <=? code hi)%nat
  | CChar d => Ascii.eqb c d
  end.

Definition class_matches (cls : list ClassItem) (c : ascii) : bool :=
  existsb (fun i => item_matches i c) cls.

Fixpoint all_chars (p : ascii -> bool) (s : string) : bool :=
  match s with
  | EmptyString => true
  | String c s' => p c && all_chars p s'
  end.

(** [/^[cls]+$/.test(s)]: without the [m] flag [^] and [$] are the two ends
    of the input, so the test holds when [s] is not empty and every
    character of it is in the class. *)
Definition test_class_plus (cls : list ClassItem) (s : string) : bool :=
  match s with
  | EmptyString => false
  | String _ _ => all_chars (class_matches cls) s
  end.

(** [s.replace(/[^cls]/g, "")]: every character outside the class is
    dropped. *)
Fixpoint remove_outside (cls : list ClassItem) (s : string) : string :=
  match s with
  | EmptyString => EmptyString
  | String c s' =>
      if class_matches cls c then String c (remove_outside cls s')
      else remove_outside cls s'
  end.

Definition lower_char (c : ascii) : ascii :=
  if (code "A" <=? code c)%nat && (code c <=? code "Z")%nat
  then ascii_of_nat (code c + 32)
  else c.

(** [s.toLowerCase()], on ASCII text. *)
Fixpoint toLowerCase (s : string) : string :=
  match s with
  | EmptyString => EmptyString
  | String c s' => String (lower_char c) (toLowerCase s')
  end.

(** [hay.includes(needle)]. *)
Fixpoint includes (needle hay : string) : bool :=
  if prefix needle hay then true
  else match hay with
       | EmptyString => false
       | String _ hay' => includes needle hay'
       end.

(** Number of positions of [hay] at which [needle] starts. *)
Fixpoint occurrences (needle hay : string) : nat :=
  match hay with
  | EmptyString => 0
  | String _ hay' =>
      (if prefix needle hay then 1 else 0) + occurrences needle hay'
  end.

(** [s || d] on strings: the empty string is the only falsy string. *)
Definition or_string (s d : string) : string :=
  match s with
  | EmptyString => d
  | String _ _ => s
  end.

(** A boolean answer that may be missing from an object: [None] is
    [undefined]. *)
Definition truthy (v : option bool) : bool :=
  match v with
  | Some b => b
  | None => false
  end.

(** [path.join] of relative segments that hold no [.] or [..] segment. *)
Fixpoint join (segments : list string) : string :=
  match segments with
  | [] => "."
  | [s] => s
  | s :: rest => s ++ "/" ++ join rest
  end.

End Js.
Import Js.

(** ** The question sequence (lines 11-66) *)

Inductive Font : Type := Inter | Poppins | Montserrat | Roboto | Lato.

(** The [value] of each choice of the [font] question. *)
Definition font_value (f : Font) : string :=
  match f with
  | Inter => "Inter"
  | Poppins => "Poppins"
  | Montserrat => "Montserrat"
  | Roboto => "Roboto"
  | Lato => "Lato"
  end.

(** What a [validate] callback returns: [true], or the message to show. *)
Inductive Validation : Type :=
| Valid
| Invalid (message : string).

(** The class of [/^[a-zA-Z0-9-_]+$/], items in source order. *)
Definition name_class : list ClassItem :=
  [CRange "a" "z"; CRange "A" "Z"; CRange "0" "9"; CChar "-"; CChar "_"].

(** The [validate] callback of the [appName] question (lines 17-25). *)
Definition validate (value : string) : Validation :=
  if includes " " value then
    Invalid "App name cannot contain spaces. Use hyphens or underscores instead."
  else if negb (test_class_plus name_class value) then
    Invalid "App name can only contain letters, numbers, hyphens, and underscores."
  else Valid.

(** The object [prompts] resolves to, destructured on line 66.
    [needsBottomTabs] is [None] when the object has no such key. *)
Record Response : Type := mkResponse {
  appName : string;
  font : Font;
  primaryColor : string;
  secondaryColor : string;
  needsAuth : bool;
  needsBottomTabs : option bool
}.

(** What the user does at the terminal: the lines submitted to the name
    question, one per attempt; the font picked; the text typed at the two
    colour questions; and for each yes/no question the key pressed, [None]
    being Enter on the preselected answer. *)
Record Session : Type := mkSession {
  typedNames : list string;
  pickedFont : Font;
  typedPrimary : string;
  typedSecondary : string;
  pressedAuth : option bool;
  pressedTabs : option bool
}.

(** A [text] question of the [prompts] package: a submitted line that is
    empty stands for [initial]; the value is validated, and a message sends
    the user back to the question.  [None]: no attempt passed. *)
Fixpoint ask_text (initial : string) (check : string -> Validation)
    (attempts : list string) : option string :=
  match attempts with
  | [] => None
  | typed :: later =>
      let value := or_string typed initial in
      match check value with
      | Valid => Some value
      | Invalid _ => ask_text initial check later
      end
  end.

(** A [confirm] question: [y], [n], or Enter for [initial]. *)
Definition ask_confirm (initial : bool) (pressed : option bool) : bool :=
  match pressed with
  | Some b => b
  | None => initial
  end.

(** The six questions in order.  The last one has the type
    [(prev) => (prev ? "confirm" : null)], [prev] being the answer to
    [needsAuth]: on [null] the package skips the question and leaves its name
    out of the result. *)
Definition prompts (s : Session) : option Response :=
  match ask_text "my-expo-app" validate (typedNames s) with
  | None => None
  | Some name =>
      let auth := ask_confirm false (pressedAuth s) in
      Some {| appName := name;
              font := pickedFont s;
              primaryColor := or_string (typedPrimary s) "";
              secondaryColor := or_string (typedSecondary s) "";
              needsAuth := auth;
              needsBottomTabs :=
                if auth then Some (ask_confirm true (pressedTabs s)) else None |}
  end.

(** ** The palette (lines 68-79) *)

Record Colors : Type := mkColors {
  primary : string;
  secondary : string;
  success : string;
  warning : string;
  error : string;
  background : string;
  surface : string;
  text : string;
  textSecondary : string;
  border : string
}.

Definition colors (r : Response) : Colors :=
  {| primary := or_string (primaryColor r) "#3B82F6";
     secondary := or_string (secondaryColor r) "#6B7280";
     success := "#10B981";
     warning := "#F59E0B";
     error := "#EF4444";
     background := "#F9FAFB";
     surface := "#FFFFFF";
     text := "#111827";
     textSecondary := "#6B7280";
     border := "#E5E7EB" |}.

(** ** The manifest edits (lines 147-150 and 1200-1203) *)

Module Json.

(** A parsed JSON document.  An object keeps its members in order, as
    [JSON.stringify] writes them back. *)
#[local] Unset Elimination Schemes.
Inductive t : Type :=
| JNull
| JBool (b : bool)
| JNumber (n : nat)
| JString (s : string)
| JArray (items : list t)
| JObject (members : list (string * t)).
#[local] Set Elimination Schemes.

Fixpoint lookup (key : string) (members : list (string * t)) : option t :=
  match members with
  | [] => None
  | (k, v) :: rest => if String.eqb k key then Some v else lookup key rest
  end.

(** [obj[key] = v] on an own data property: an existing member is
    overwritten in place, a new one goes last. *)
Fixpoint assign (key : string) (v : t) (members : list (string * t))
  : list (string * t) :=
  match members with
  | [] => [(key, v)]
  | (k, old) :: rest =>
      if String.eqb k key then (k, v) :: rest
      else (k, old) :: assign key v rest
  end.

(** [doc.key]: [None] is [undefined]. *)
Definition get (key : string) (doc : t) : option t :=
  match doc with
  | JObject members => lookup key members
  | _ => None
  end.

End Json.
Import Json.

(** [appName.toLowerCase().replace(/[^a-z0-9]/g, "")] (line 149). *)
Definition scheme_class : list ClassItem := [CRange "a" "z"; CRange "0" "9"].

Definition scheme_of (name : string) : string :=
  remove_outside scheme_class (toLowerCase name).

(** [appJson.expo.scheme = ...] followed by [JSON.stringify] (lines 148-150),
    on the parsed document.  [None] is the [TypeError] of the assignment: the
    module is strict code, so a property cannot be set on [undefined], [null]
    or a primitive.  A property set on an array is not an element, and
    [JSON.stringify] leaves it out. *)
Definition set_scheme (appJson : Json.t) (name : string) : option Json.t :=
  match appJson with
  | JObject members =>
      match lookup "expo" members with
      | Some (JObject expo) =>
          Some (JObject (assign "expo"
                  (JObject (assign "scheme" (JString (scheme_of name)) expo))
                  members))
      | Some (JArray _) => Some appJson
      | _ => None
      end
  | _ => None
  end.

(** [packageJson.main = "./app/_layout.tsx"] (lines 1201-1203). *)
Definition set_main (packageJson : Json.t) : option Json.t :=
  match packageJson with
  | JObject members =>
      Some (JObject (assign "main" (JString "./app/_layout.tsx") members))
  | JArray _ => Some packageJson
  | _ => None
  end.

(** ** The templates

    A Rocq string literal cannot hold the double-quote character, so each
    literal below is written with [~] where the template has a double quote,
    and [tpl] puts the quote back.  [~] occurs nowhere in [index.js].  The
    escapes of the template literals ([\`], [\$], [\\]) are written as the
    characters they denote. *)

Definition dquote : ascii := ascii_of_nat 34.

Fixpoint tpl (s : string) : string :=
  match s with
  | EmptyString => EmptyString
  | String c s' => String (if Ascii.eqb c "~" then dquote else c) (tpl s')
  end.

Definition tailwindConfig (r : Response) : string :=
  tpl "
/** @type {import('tailwindcss').Config} */
module.exports = {
  content: [
    ~./app/**/*.{js,jsx,ts,tsx}~,
    ~./components/**/*.{js,jsx,ts,tsx}~,
    ~./features/**/*.{js,jsx,ts,tsx}~
  ],
  theme: {
    extend: {
      fontFamily: {
        sans: [~"
  ++ font_value (font r)
  ++ tpl "~],
      },
      colors: {
        primary: ~"
  ++ primary (colors r)
  ++ tpl "~,
        secondary: ~"
  ++ secondary (colors r)
  ++ tpl "~,
        success: ~"
  ++ success (colors r)
  ++ tpl "~,
        warning: ~"
  ++ warning (colors r)
  ++ tpl "~,
        error: ~"
  ++ error (colors r)
  ++ tpl "~,
        background: ~"
  ++ background (colors r)
  ++ tpl "~,
        surface: ~"
  ++ surface (colors r)
  ++ tpl "~,
        text: ~"
  ++ text (colors r)
  ++ tpl "~,
        textSecondary: ~"
  ++ textSecondary (colors r)
  ++ tpl "~,
        border: ~"
  ++ border (colors r)
  ++ tpl "~,
      },
    },
  },
  plugins: [],
}".

Definition themeFile (r : Response) : string :=
  tpl "
export const theme = {
  colors: {
    primary: ~"
  ++ primary (colors r)
  ++ tpl "~,
    secondary: ~"
  ++ secondary (colors r)
  ++ tpl "~,
    success: ~"
  ++ success (colors r)
  ++ tpl "~,
    warning: ~"
  ++ warning (colors r)
  ++ tpl "~,
    error: ~"
  ++ error (colors r)
  ++ tpl "~,
    background: ~"
  ++ background (colors r)
  ++ tpl "~,
    surface: ~"
  ++ surface (colors r)
  ++ tpl "~,
    text: ~"
  ++ text (colors r)
  ++ tpl "~,
    textSecondary: ~"
  ++ textSecondary (colors r)
  ++ tpl "~,
    border: ~"
  ++ border (colors r)
  ++ tpl "~,
  },
  fontFamily: ~"
  ++ font_value (font r)
  ++ tpl "~,
  spacing: {
    xs: 4,
    sm: 8,
    md: 16,
    lg: 24,
    xl: 32,
    xxl: 48,
  },
  borderRadius: {
    sm: 8,
    md: 12,
    lg: 16,
    xl: 24,
  },
};

export type Theme = typeof theme;
".

Definition textComponent : string :=
  tpl "
import React from ~react~;
import { Text as RNText, TextProps as RNTextProps } from ~react-native~;
import { theme } from ~../constants/theme~;

interface TextProps extends RNTextProps {
  variant?: ~heading~ | ~subheading~ | ~body~ | ~caption~ | ~label~;
  color?: ~primary~ | ~secondary~ | ~text~ | ~textSecondary~ | ~error~ | ~success~ | ~warning~;
  weight?: ~normal~ | ~medium~ | ~semibold~ | ~bold~;
}

const Text: React.FC<TextProps> = ({ 
  variant = ~body~, 
  color = ~text~, 
  weight = ~normal~,
  style,
  className = ~~,
  ...props 
}) => {
  const getVariantStyle = () => {
    switch (variant) {
      case ~heading~:
        return ~text-3xl font-bold~;
      case ~subheading~:
        return ~text-xl font-semibold~;
      case ~body~:
        return ~text-base~;
      case ~caption~:
        return ~text-sm~;
      case ~label~:
        return ~text-sm font-medium~;
      default:
        return ~text-base~;
    }
  };

  const getColorStyle = () => {
    switch (color) {
      case ~primary~:
        return ~text-primary~;
      case ~secondary~:
        return ~text-secondary~;
      case ~error~:
        return ~text-error~;
      case ~success~:
        return ~text-success~;
      case ~warning~:
        return ~text-warning~;
      case ~textSecondary~:
        return ~text-textSecondary~;
      default:
        return ~text-text~;
    }
  };

  const getWeightStyle = () => {
    switch (weight) {
      case ~medium~:
        return ~font-medium~;
      case ~semibold~:
        return ~font-semibold~;
      case ~bold~:
        return ~font-bold~;
      default:
        return ~font-normal~;
    }
  };

  const combinedClassName = `${getVariantStyle()} ${getColorStyle()} ${getWeightStyle()} ${className}`;

  return (
    <RNText
      style={[{ fontFamily: theme.fontFamily }, style]}
      className={combinedClassName}
      {...props}
    />
  );
};

export default Text;
".

Definition buttonComponent : string :=
  tpl "
import React from ~react~;
import { TouchableOpacity, TouchableOpacityProps, ActivityIndicator } from ~react-native~;
import Text from ~./Text~;

interface ButtonProps extends TouchableOpacityProps {
  title: string;
  variant?: ~primary~ | ~secondary~ | ~outline~ | ~ghost~ | ~danger~;
  size?: ~sm~ | ~md~ | ~lg~;
  loading?: boolean;
  fullWidth?: boolean;
}

const Button: React.FC<ButtonProps> = ({
  title,
  variant = ~primary~,
  size = ~md~,
  loading = false,
  fullWidth = false,
  disabled,
  className = ~~,
  ...props
}) => {
  const getVariantStyle = () => {
    switch (variant) {
      case ~primary~:
        return ~bg-primary~;
      case ~secondary~:
        return ~bg-secondary~;
      case ~outline~:
        return ~bg-transparent border-2 border-primary~;
      case ~ghost~:
        return ~bg-transparent~;
      case ~danger~:
        return ~bg-error~;
      default:
        return ~bg-primary~;
    }
  };

  const getSizeStyle = () => {
    switch (size) {
      case ~sm~:
        return ~px-3 py-2 rounded-lg~;
      case ~md~:
        return ~px-4 py-3 rounded-xl~;
      case ~lg~:
        return ~px-6 py-4 rounded-2xl~;
      default:
        return ~px-4 py-3 rounded-xl~;
    }
  };

  const getTextColor = () => {
    switch (variant) {
      case ~outline~:
      case ~ghost~:
        return ~primary~;
      default:
        return ~surface~;
    }
  };

  const getTextSize = () => {
    switch (size) {
      case ~sm~:
        return ~caption~;
      case ~md~:
        return ~body~;
      case ~lg~:
        return ~subheading~;
      default:
        return ~body~;
    }
  };

  const isDisabled = disabled || loading;
  const widthStyle = fullWidth ? ~w-full~ : ~~;
  const opacityStyle = isDisabled ? ~opacity-50~ : ~~;
  
  const combinedClassName = `${getVariantStyle()} ${getSizeStyle()} ${widthStyle} ${opacityStyle} ${className}`;

  return (
    <TouchableOpacity
      disabled={isDisabled}
      className={combinedClassName}
      {...props}
    >
      {loading ? (
        <ActivityIndicator color={variant === ~outline~ || variant === ~ghost~ ? colors.primary : colors.surface} />
      ) : (
        <Text variant={getTextSize()} color={getTextColor()} weight=~semibold~ className=~text-center~>
          {title}
        </Text>
      )}
    </TouchableOpacity>
  );
};

export default Button;
".

Definition textFieldComponent : string :=
  tpl "
import React from ~react~;
import { Controller, Control, FieldError } from ~react-hook-form~;
import { TextInput, View, TextInputProps } from ~react-native~;
import Text from ~./Text~;

interface TextFieldProps extends TextInputProps {
  control: Control<any>;
  name: string;
  label?: string;
  placeholder?: string;
  error?: FieldError;
  variant?: ~default~ | ~filled~ | ~outline~;
  size?: ~sm~ | ~md~ | ~lg~;
}

const TextField: React.FC<TextFieldProps> = ({
  control,
  name,
  label,
  placeholder,
  variant = ~outline~,
  size = ~md~,
  className = ~~,
  ...props
}) => {
  const getVariantStyle = () => {
    switch (variant) {
      case ~filled~:
        return ~bg-background border border-border~;
      case ~outline~:
        return ~bg-surface border-2 border-border focus:border-primary~;
      default:
        return ~bg-surface border border-border~;
    }
  };

  const getSizeStyle = () => {
    switch (size) {
      case ~sm~:
        return ~px-3 py-2 rounded-lg text-sm~;
      case ~md~:
        return ~px-4 py-3 rounded-xl text-base~;
      case ~lg~:
        return ~px-5 py-4 rounded-2xl text-lg~;
      default:
        return ~px-4 py-3 rounded-xl text-base~;
    }
  };

  return (
    <Controller
      control={control}
      name={name}
      render={({ field: { onChange, value, onBlur }, fieldState: { error } }) => (
        <View className=~mb-4~>
          {label && (
            <Text variant=~label~ color=~text~ className=~mb-2~>
              {label}
            </Text>
          )}
          <TextInput
            value={value}
            onChangeText={onChange}
            onBlur={onBlur}
            placeholder={placeholder}
            placeholderTextColor=~#9CA3AF~
            className={`${getVariantStyle()} ${getSizeStyle()} ${error ? ~border-error~ : ~~} ${className}`}
            {...props}
          />
          {error && (
            <Text variant=~caption~ color=~error~ className=~mt-1~>
              {error.message}
            </Text>
          )}
        </View>
      )}
    />
  );
};

export default TextField;
".

Definition safeAreaComponent : string :=
  tpl "
import React from ~react~;
import { SafeAreaView, StatusBar } from ~react-native~;
import { SafeAreaProvider } from ~react-native-safe-area-context~;

interface SafeAreaLayoutProps {
  children: React.ReactNode;
  className?: string;
  statusBarStyle?: ~light~ | ~dark~;
}

const SafeAreaLayout: React.FC<SafeAreaLayoutProps> = ({
  children,
  className = ~~,
  statusBarStyle = ~dark~,
}) => {
  return (
    <SafeAreaProvider>
      <SafeAreaView className={`flex-1 bg-background ${className}`}>
        <StatusBar barStyle={`${statusBarStyle}-content`} backgroundColor=~transparent~ translucent />
        {children}
      </SafeAreaView>
    </SafeAreaProvider>
  );
};

export default SafeAreaLayout;
".

Definition fullScreenComponent : string :=
  tpl "
import React from ~react~;
import { View } from ~react-native~;
import SafeAreaLayout from ~./SafeAreaLayout~;

interface FullScreenLayoutProps {
  children: React.ReactNode;
  className?: string;
  statusBarStyle?: ~light~ | ~dark~;
  safeArea?: boolean;
}

const FullScreenLayout: React.FC<FullScreenLayoutProps> = ({
  children,
  className = ~~,
  statusBarStyle = ~dark~,
  safeArea = true,
}) => {
  if (safeArea) {
    return (
      <SafeAreaLayout className={className} statusBarStyle={statusBarStyle}>
        {children}
      </SafeAreaLayout>
    );
  }

  return (
    <View className={`flex-1 bg-background ${className}`}>
      {children}
    </View>
  );
};

export default FullScreenLayout;
".

Definition componentsIndex : string :=
  tpl "
export { default as Text } from ~./Text~;
export { default as Button } from ~./Button~;
export { default as TextField } from ~./TextField~;
export { default as SafeAreaLayout } from ~./SafeAreaLayout~;
export { default as FullScreenLayout } from ~./FullScreenLayout~;
".

Definition loginPage : string :=
  tpl "
import React from ~react~;
import { View } from ~react-native~;
import { useForm } from ~react-hook-form~;
import { Link, router } from ~expo-router~;
import { FullScreenLayout, Text, TextField, Button } from ~../../components/ui~;

interface LoginForm {
  email: string;
  password: string;
}

export default function LoginPage() {
  const { control, handleSubmit, formState: { errors } } = useForm<LoginForm>();

  const onSubmit = (data: LoginForm) => {
    console.log(~Login data:~, data);
    // TODO: Implement authentication logic
    router.replace(~/(tabs)~);
  };

  return (
    <FullScreenLayout>
      <View className=~flex-1 justify-center px-6~>
        <View className=~mb-8~>
          <Text variant=~heading~ className=~text-center mb-2~>
            Welcome Back
          </Text>
          <Text variant=~body~ color=~textSecondary~ className=~text-center~>
            Sign in to your account
          </Text>
        </View>

        <View className=~mb-6~>
          <TextField
            control={control}
            name=~email~
            label=~Email~
            placeholder=~Enter your email~
            keyboardType=~email-address~
            autoCapitalize=~none~
            rules={{ 
              required: ~Email is required~,
              pattern: {
                value: /^[A-Z0-9._%+-]+@[A-Z0-9.-]+\.[A-Z]{2,}$/i,
                message: ~Invalid email address~
              }
            }}
          />
          
          <TextField
            control={control}
            name=~password~
            label=~Password~
            placeholder=~Enter your password~
            secureTextEntry
            rules={{ 
              required: ~Password is required~,
              minLength: {
                value: 6,
                message: ~Password must be at least 6 characters~
              }
            }}
          />
        </View>

        <Button
          title=~Sign In~
          onPress={handleSubmit(onSubmit)}
          variant=~primary~
          size=~lg~
          fullWidth
          className=~mb-4~
        />

        <View className=~flex-row justify-center~>
          <Text variant=~body~ color=~textSecondary~>
            Don't have an account?{~ ~}
          </Text>
          <Link href=~/signup~ asChild>
            <Text variant=~body~ color=~primary~ weight=~medium~>
              Sign up
            </Text>
          </Link>
        </View>
      </View>
    </FullScreenLayout>
  );
}
".

Definition signupPage : string :=
  tpl "
import React from ~react~;
import { View } from ~react-native~;
import { useForm } from ~react-hook-form~;
import { Link, router } from ~expo-router~;
import { FullScreenLayout, Text, TextField, Button } from ~../../components/ui~;

interface SignupForm {
  name: string;
  email: string;
  password: string;
  confirmPassword: string;
}

export default function SignupPage() {
  const { control, handleSubmit, watch, formState: { errors } } = useForm<SignupForm>();
  const password = watch(~password~);

  const onSubmit = (data: SignupForm) => {
    console.log(~Signup data:~, data);
    // TODO: Implement registration logic
    router.replace(~/(tabs)~);
  };

  return (
    <FullScreenLayout>
      <View className=~flex-1 justify-center px-6~>
        <View className=~mb-8~>
          <Text variant=~heading~ className=~text-center mb-2~>
            Create Account
          </Text>
          <Text variant=~body~ color=~textSecondary~ className=~text-center~>
            Join us today
          </Text>
        </View>

        <View className=~mb-6~>
          <TextField
            control={control}
            name=~name~
            label=~Full Name~
            placeholder=~Enter your full name~
            rules={{ required: ~Name is required~ }}
          />
          
          <TextField
            control={control}
            name=~email~
            label=~Email~
            placeholder=~Enter your email~
            keyboardType=~email-address~
            autoCapitalize=~none~
            rules={{ 
              required: ~Email is required~,
              pattern: {
                value: /^[A-Z0-9._%+-]+@[A-Z0-9.-]+\.[A-Z]{2,}$/i,
                message: ~Invalid email address~
              }
            }}
          />
          
          <TextField
            control={control}
            name=~password~
            label=~Password~
            placeholder=~Enter your password~
            secureTextEntry
            rules={{ 
              required: ~Password is required~,
              minLength: {
                value: 6,
                message: ~Password must be at least 6 characters~
              }
            }}
          />

          <TextField
            control={control}
            name=~confirmPassword~
            label=~Confirm Password~
            placeholder=~Confirm your password~
            secureTextEntry
            rules={{ 
              required: ~Please confirm your password~,
              validate: (value) => value === password || ~Passwords do not match~
            }}
          />
        </View>

        <Button
          title=~Create Account~
          onPress={handleSubmit(onSubmit)}
          variant=~primary~
          size=~lg~
          fullWidth
          className=~mb-4~
        />

        <View className=~flex-row justify-center~>
          <Text variant=~body~ color=~textSecondary~>
            Already have an account?{~ ~}
          </Text>
          <Link href=~/login~ asChild>
            <Text variant=~body~ color=~primary~ weight=~medium~>
              Sign in
            </Text>
          </Link>
        </View>
      </View>
    </FullScreenLayout>
  );
}
".

Definition tabsLayout : string :=
  tpl "
import React from ~react~;
import { Tabs } from ~expo-router~;
import { Ionicons } from ~@expo/vector-icons~;
import { theme } from ~../../constants/theme~;

export default function TabsLayout() {
  return (
    <Tabs
      screenOptions={{
        tabBarActiveTintColor: theme.colors.primary,
        tabBarInactiveTintColor: theme.colors.textSecondary,
        tabBarStyle: {
          backgroundColor: theme.colors.surface,
          borderTopColor: theme.colors.border,
        },
        headerShown: false,
      }}
    >
      <Tabs.Screen
        name=~index~
        options={{
          title: ~Home~,
          tabBarIcon: ({ color, size }) => (
            <Ionicons name=~home~ size={size} color={color} />
          ),
        }}
      />
      <Tabs.Screen
        name=~explore~
        options={{
          title: ~Explore~,
          tabBarIcon: ({ color, size }) => (
            <Ionicons name=~search~ size={size} color={color} />
          ),
        }}
      />
      <Tabs.Screen
        name=~notifications~
        options={{
          title: ~Notifications~,
          tabBarIcon: ({ color, size }) => (
            <Ionicons name=~notifications~ size={size} color={color} />
          ),
        }}
      />
      <Tabs.Screen
        name=~profile~
        options={{
          title: ~Profile~,
          tabBarIcon: ({ color, size }) => (
            <Ionicons name=~person~ size={size} color={color} />
          ),
        }}
      />
    </Tabs>
  );
}
".

Definition homeScreen (r : Response) : string :=
  tpl "
import React from ~react~;
import { View, ScrollView } from ~react-native~;
import { FullScreenLayout, Text, Button } from ~../../../components/ui~;

export default function HomeScreen() {
  return (
    <FullScreenLayout>
      <ScrollView className=~flex-1~>
        <View className=~px-6 pt-6~>
          <Text variant=~heading~ className=~mb-2~>
            Welcome to "
  ++ appName r
  ++ tpl "!
          </Text>
          <Text variant=~body~ color=~textSecondary~ className=~mb-6~>
            Your modern Expo app is ready to go.
          </Text>

          <View className=~space-y-4~>
            <Button
              title=~Get Started~
              variant=~primary~
              size=~lg~
              fullWidth
              onPress={() => console.log(~Get Started pressed~)}
            />
            
            <Button
              title=~Learn More~
              variant=~outline~
              size=~md~
              fullWidth
              onPress={() => console.log(~Learn More pressed~)}
            />
          </View>

          <View className=~mt-8 p-4 bg-surface rounded-2xl border border-border~>
            <Text variant=~subheading~ className=~mb-2~>
              Quick Actions
            </Text>
            <Text variant=~body~ color=~textSecondary~>
              This is where you can add your main app functionality.
            </Text>
          </View>
        </View>
      </ScrollView>
    </FullScreenLayout>
  );
}
".

Definition exploreScreen : string :=
  tpl "
import React from ~react~;
import { View, ScrollView } from ~react-native~;
import { FullScreenLayout, Text, Button } from ~../../../components/ui~;

export default function ExploreScreen() {
  return (
    <FullScreenLayout>
      <ScrollView className=~flex-1~>
        <View className=~px-6 pt-6~>
          <Text variant=~heading~ className=~mb-6~>
            Explore
          </Text>

          <View className=~space-y-4~>
            {[1, 2, 3, 4].map((item) => (
              <View key={item} className=~p-4 bg-surface rounded-2xl border border-border~>
                <Text variant=~subheading~ className=~mb-2~>
                  Feature {item}
                </Text>
                <Text variant=~body~ color=~textSecondary~ className=~mb-3~>
                  Discover amazing content and features in this section.
                </Text>
                <Button
                  title=~Explore~
                  variant=~ghost~
                  size=~sm~
                  onPress={() => console.log(`Explore item ${item}`)}
                />
              </View>
            ))}
          </View>
        </View>
      </ScrollView>
    </FullScreenLayout>
  );
}
".

Definition notificationsScreen (r : Response) : string :=
  tpl "
import React from ~react~;
import { View, ScrollView } from ~react-native~;
import { FullScreenLayout, Text } from ~../../../components/ui~;

export default function NotificationsScreen() {
  const notifications = [
    { id: 1, title: ~Welcome!~, message: ~Thanks for using "
  ++ appName r
  ++ tpl "~, time: ~2 min ago~ },
    { id: 2, title: ~New Feature~, message: ~Check out our latest update~, time: ~1 hour ago~ },
    { id: 3, title: ~Reminder~, message: ~Don't forget to complete your profile~, time: ~2 hours ago~ },
  ];

  return (
    <FullScreenLayout>
      <ScrollView className=~flex-1~>
        <View className=~px-6 pt-6~>
          <Text variant=~heading~ className=~mb-6~>
            Notifications
          </Text>

          <View className=~space-y-3~>
            {notifications.map((notification) => (
              <View key={notification.id} className=~p-4 bg-surface rounded-2xl border border-border~>
                <View className=~flex-row justify-between items-start mb-2~>
                  <Text variant=~label~ className=~flex-1~>
                    {notification.title}
                  </Text>
                  <Text variant=~caption~ color=~textSecondary~>
                    {notification.time}
                  </Text>
                </View>
                <Text variant=~body~ color=~textSecondary~>
                  {notification.message}
                </Text>
              </View>
            ))}
          </View>
        </View>
      </ScrollView>
    </FullScreenLayout>
  );
}
".

Definition profileScreen : string :=
  tpl "
import React from ~react~;
import { View, ScrollView } from ~react-native~;
import { FullScreenLayout, Text, Button } from ~../../../components/ui~;

export default function ProfileScreen() {
  const userInfo = {
    name: ~John Doe~,
    email: ~john.doe@example.com~,
    joinDate: ~January 2025~,
  };

  return (
    <FullScreenLayout>
      <ScrollView className=~flex-1~>
        <View className=~px-6 pt-6~>
          <Text variant=~heading~ className=~mb-6~>
            Profile
          </Text>

          <View className=~p-6 bg-surface rounded-2xl border border-border mb-6~>
            <View className=~w-20 h-20 bg-primary rounded-full mb-4 items-center justify-center~>
              <Text variant=~heading~ color=~surface~>
                {userInfo.name.split(~ ~).map(n => n[0]).join(~~)}
              </Text>
            </View>
            
            <Text variant=~subheading~ className=~mb-1~>
              {userInfo.name}
            </Text>
            <Text variant=~body~ color=~textSecondary~ className=~mb-1~>
              {userInfo.email}
            </Text>
            <Text variant=~caption~ color=~textSecondary~>
              Member since {userInfo.joinDate}
            </Text>
          </View>

          <View className=~space-y-4~>
            <View className=~p-4 bg-surface rounded-2xl border border-border~>
              <Text variant=~label~ className=~mb-2~>Settings</Text>
              <View className=~space-y-3~>
                <Button
                  title=~Edit Profile~
                  variant=~ghost~
                  size=~sm~
                  onPress={() => console.log(~Edit profile~)}
                />
                <Button
                  title=~Preferences~
                  variant=~ghost~
                  size=~sm~
                  onPress={() => console.log(~Preferences~)}
                />
                <Button
                  title=~Privacy~
                  variant=~ghost~
                  size=~sm~
                  onPress={() => console.log(~Privacy~)}
                />
              </View>
            </View>

            <Button
              title=~Sign Out~
              variant=~danger~
              size=~md~
              fullWidth
              onPress={() => console.log(~Sign out~)}
            />
          </View>
        </View>
      </ScrollView>
    </FullScreenLayout>
  );
}
".

Definition simpleHomeScreen (r : Response) : string :=
  tpl "
import React from ~react~;
import { View, ScrollView } from ~react-native~;
import { FullScreenLayout, Text, Button } from ~../../components/ui~;

export default function HomeScreen() {
  return (
    <FullScreenLayout>
      <ScrollView className=~flex-1~>
        <View className=~px-6 pt-6~>
          <Text variant=~heading~ className=~mb-2~>
            Welcome to "
  ++ appName r
  ++ tpl "!
          </Text>
          <Text variant=~body~ color=~textSecondary~ className=~mb-6~>
            Your modern Expo app is ready to go.
          </Text>

          <View className=~space-y-4~>
            <Button
              title=~Get Started~
              variant=~primary~
              size=~lg~
              fullWidth
              onPress={() => console.log(~Get Started pressed~)}
            />
            
            <Button
              title=~Learn More~
              variant=~outline~
              size=~md~
              fullWidth
              onPress={() => console.log(~Learn More pressed~)}
            />

            <Button
              title=~Contact Support~
              variant=~ghost~
              size=~md~
              fullWidth
              onPress={() => console.log(~Contact Support pressed~)}
            />
          </View>

          <View className=~mt-8 p-4 bg-surface rounded-2xl border border-border~>
            <Text variant=~subheading~ className=~mb-2~>
              Getting Started
            </Text>
            <Text variant=~body~ color=~textSecondary~>
              This is your main app screen. You can start building your features here.
            </Text>
          </View>
        </View>
      </ScrollView>
    </FullScreenLayout>
  );
}
".

Definition mainLayout (r : Response) : string :=
  tpl "
import React, { useEffect } from ~react~;
import { Stack } from ~expo-router~;
import { useFonts } from ~expo-font~;
import { SplashScreen } from ~expo-splash-screen~;
import ~../global.css~;

// Keep the splash screen visible while we fetch resources
SplashScreen.preventAutoHideAsync();

export default function RootLayout() {
  const [loaded, error] = useFonts({
    ~"
  ++ font_value (font r)
  ++ tpl "~: require(~expo-google-fonts/"
  ++ toLowerCase (font_value (font r))
  ++ tpl "~)."
  ++ font_value (font r)
  ++ tpl ",
  });

  useEffect(() => {
    if (loaded || error) {
      SplashScreen.hideAsync();
    }
  }, [loaded, error]);

  if (!loaded && !error) {
    return null;
  }

  return (
    <Stack screenOptions={{ headerShown: false }}>
      "
  ++ (if needsAuth r then tpl "
      <Stack.Screen name=~login~ />
      <Stack.Screen name=~signup~ />
      <Stack.Screen name=~(tabs)~ options={{ headerShown: false }} />
      "
      else if truthy (needsBottomTabs r) then tpl "
      <Stack.Screen name=~(tabs)~ options={{ headerShown: false }} />
      "
      else tpl "
      <Stack.Screen name=~index~ />
      ")
  ++ tpl "
    </Stack>
  );
}
".

Definition globalCSS : string :=
  tpl "
@tailwind base;
@tailwind components;
@tailwind utilities;
".

Definition metroConfig : string :=
  tpl "
const { getDefaultConfig } = require(~expo/metro-config~);
const { withNativeWind } = require(~nativewind/metro~);

const config = getDefaultConfig(__dirname);

module.exports = withNativeWind(config, { input: ~./global.css~ });
".

Definition useThemeHook : string :=
  tpl "
import { theme } from ~../constants/theme~;

export const useTheme = () => {
  return theme;
};
".

Definition validationUtils : string :=
  tpl "
export const validationRules = {
  email: {
    required: ~Email is required~,
    pattern: {
      value: /^[A-Z0-9._%+-]+@[A-Z0-9.-]+\.[A-Z]{2,}$/i,
      message: ~Invalid email address~
    }
  },
  password: {
    required: ~Password is required~,
    minLength: {
      value: 6,
      message: ~Password must be at least 6 characters~
    }
  },
  name: {
    required: ~Name is required~,
    minLength: {
      value: 2,
      message: ~Name must be at least 2 characters~
    }
  }
};

export const formatters = {
  capitalize: (str: string) => str.charAt(0).toUpperCase() + str.slice(1).toLowerCase(),
  truncate: (str: string, length: number) => str.length > length ? str.substring(0, length) + ~...~ : str,
};
".

(** ** The file operations (steps 3 and 5 to 17 of [run])

    Paths are relative to [appPath], the project root every call joins its
    segments to. *)

Inductive FsOp : Type :=
| EnsureDir (dir : string)
| WriteFile (path content : string).

Definition folders : list string :=
  ["app"; "components/ui"; "features"; "hooks"; "utils"; "constants"].

Definition steps (r : Response) : list FsOp :=
  ([ WriteFile (join ["tailwind.config.js"]) (tailwindConfig r) ]
   ++ map (fun f => EnsureDir (join [f])) folders
   ++ [ WriteFile (join ["constants"; "theme.ts"]) (themeFile r);
        WriteFile (join ["components/ui"; "Text.tsx"]) textComponent;
        WriteFile (join ["components/ui"; "Button.tsx"]) buttonComponent;
        WriteFile (join ["components/ui"; "TextField.tsx"]) textFieldComponent;
        WriteFile (join ["components/ui"; "SafeAreaLayout.tsx"]) safeAreaComponent;
        WriteFile (join ["components/ui"; "FullScreenLayout.tsx"]) fullScreenComponent;
        WriteFile (join ["components/ui"; "index.ts"]) componentsIndex ]
   ++ (if needsAuth r then
         [ WriteFile (join ["app"; "login.tsx"]) loginPage;
           WriteFile (join ["app"; "signup.tsx"]) signupPage ]
       else [])
   ++ (if truthy (needsBottomTabs r) then
         [ EnsureDir (join ["app"; "(tabs)"]);
           WriteFile (join ["app"; "(tabs)"; "_layout.tsx"]) tabsLayout;
           WriteFile (join ["app"; "(tabs)"; "index.tsx"]) (homeScreen r);
           WriteFile (join ["app"; "(tabs)"; "explore.tsx"]) exploreScreen;
           WriteFile (join ["app"; "(tabs)"; "notifications.tsx"])
                     (notificationsScreen r);
           WriteFile (join ["app"; "(tabs)"; "profile.tsx"]) profileScreen ]
       else
         [ WriteFile (join ["app"; "index.tsx"]) (simpleHomeScreen r) ])
   ++ [ WriteFile (join ["app"; "_layout.tsx"]) (mainLayout r);
        WriteFile (join ["global.css"]) globalCSS;
        WriteFile (join ["metro.config.js"]) metroConfig;
        WriteFile (join ["hooks"; "useTheme.ts"]) useThemeHook;
        WriteFile (join ["utils"; "validation.ts"]) validationUtils ])%list.

(** The file-tree plan: the files [run] writes, in order, with their
    content. *)
Definition written (op : FsOp) : list (string * string) :=
  match op with
  | WriteFile p c => [(p, c)]
  | EnsureDir _ => []
  end.

Definition plan (r : Response) : list (string * string) :=
  flat_map written (steps r).

Definition paths (r : Response) : list string := map fst (plan r).

(** The content planned for a path: the last write to it. *)
Definition content_at (p : string) (r : Response) : option string :=
  option_map snd
    (find (fun f => String.eqb (fst f) p) (rev (plan r))).

(** The whole run, from the terminal session to the plan: nothing is planned
    unless the questions produced a response. *)
Definition generate (s : Session) : option (Response * list (string * string)) :=
  match prompts s with
  | Some r => Some (r, plan r)
  | None => None
  end.

(** Path predicates used by the statements. *)
Definition is_tab_file (p : string) : bool := prefix "app/(tabs)/" p.
Definition is_auth_file (p : string) : bool :=
  String.eqb p "app/login.tsx" || String.eqb p "app/signup.tsx".
Definition count_path (p : string) (r : Response) : nat :=
  length (filter (String.eqb p) (paths r)).
Definition mem_path (p : string) (r : Response) : bool :=
  existsb (String.eqb p) (paths r).

(** ** The packages installed (step 2, lines 98-112) *)

(** The packages handed to [npm install]. *)
Definition dependencies (r : Response) : list string :=
  [ "nativewind";
    "tailwindcss";
    "react-hook-form";
    "expo-font";
    "expo-router";
    "expo-splash-screen";
    "expo-status-bar";
    "react-native-safe-area-context";
    "react-native-screens";
    "expo-google-fonts-" ++ toLowerCase (font_value (font r)) ].

(** ** The file system the operations act on

    [fs.ensureDirSync] of fs-extra and [fs.readFileSync] and
    [fs.writeFileSync] of Node, on a tree of plain files and directories
    under the project root, every entry of which the process may read and
    write.  A path is relative to the root and has no empty, [.] or [..]
    segment. *)

Module Fs.

(** What a file holds.  [JSON.parse] and [JSON.stringify] are not modelled
    on text: a file whose text is a JSON document is kept as the document
    that [JSON.parse] makes of it, and a [Text] is a text that is not JSON
    (as every template is). *)
Inductive Content : Type :=
| Text (s : string)
| Document (j : Json.t).

Inductive Node : Type :=
| File (content : Content)
| Dir.

(** The entries under the project root, by path.  The root itself is [.] and
    always a directory. *)
Definition t : Type := list (string * Node).

Fixpoint lookup (p : string) (fs : t) : option Node :=
  match fs with
  | [] => None
  | (q, n) :: rest => if String.eqb q p then Some n else lookup p rest
  end.

Fixpoint set (p : string) (n : Node) (fs : t) : t :=
  match fs with
  | [] => [(p, n)]
  | (q, old) :: rest =>
      if String.eqb q p then (q, n) :: rest else (q, old) :: set p n rest
  end.

(** The part of [p] before its last [/], if it has one. *)
Fixpoint before_last_slash (p : string) : option string :=
  match p with
  | EmptyString => None
  | String c p' =>
      match before_last_slash p' with
      | Some d => Some (String c d)
      | None => if Ascii.eqb c "/" then Some EmptyString else None
      end
  end.

(** [path.dirname(p)]. *)
Definition dirname (p : string) : string :=
  match before_last_slash p with
  | None => "."
  | Some EmptyString => "/"
  | Some d => d
  end.

(** The segments of a path: [segments "a/b" = ["a"; "b"]]. *)
Fixpoint segments (p : string) : list string :=
  match p with
  | EmptyString => [EmptyString]
  | String c p' =>
      match segments p' with
      | [] => []
      | s :: rest =>
          if Ascii.eqb c "/" then EmptyString :: s :: rest
          else String c s :: rest
      end
  end.

(** [path.normalize] on the segments of a relative path: empty and [.]
    segments go, and [..] takes the segment before it away unless there is
    none left to take.  [seen] is what was kept so far, last first. *)
Fixpoint normalize (seen todo : list string) : list string :=
  match todo with
  | [] => rev seen
  | s :: rest =>
      if String.eqb s "" || String.eqb s "." then normalize seen rest
      else if String.eqb s ".." then
        match seen with
        | [] => normalize [s] rest
        | d :: seen' =>
            if String.eqb d ".." then normalize (s :: seen) rest
            else normalize seen' rest
        end
      else normalize (s :: seen) rest
  end.

(** [path.join(a, b)] of two relative paths. *)
Definition join2 (a b : string) : string :=
  join (normalize [] (segments a ++ segments b)).

(** [d] and the directories above it, outermost first:
    [chain "app/(tabs)" = ["app"; "app/(tabs)"]]. *)
Fixpoint chain (d : string) : list string :=
  match d with
  | EmptyString => [EmptyString]
  | String c d' =>
      let below := map (String c) (chain d') in
      if Ascii.eqb c "/" then EmptyString :: below else below
  end.

Definition is_dir (fs : t) (d : string) : bool :=
  if String.eqb d "." then true
  else match lookup d fs with
       | Some Dir => true
       | _ => false
       end.

(** One level of [mkdir -p]: an existing directory is left alone, a missing
    one is made, a file in the way is an error. *)
Definition mkdir (fs : option t) (d : string) : option t :=
  match fs with
  | None => None
  | Some fs =>
      match lookup d fs with
      | Some Dir => Some fs
      | Some (File _) => None
      | None => Some (set d Dir fs)
      end
  end.

(** [fs.ensureDirSync(d)]. *)
Definition ensureDirSync (d : string) (fs : t) : option t :=
  fold_left mkdir (chain d) (Some fs).

(** [fs.writeFileSync(p, content)]: the directory of [p] must exist and [p]
    must not be a directory; an existing file is replaced. *)
Definition writeFileSync (p : string) (content : Content) (fs : t)
  : option t :=
  if is_dir fs (dirname p) then
    match lookup p fs with
    | Some Dir => None
    | _ => Some (set p (File content) fs)
    end
  else None.

(** [JSON.parse(fs.readFileSync(p, "utf8"))], an assignment on the parsed
    document, and [fs.writeFileSync(p, JSON.stringify(...))].  Reading throws
    when [p] is missing or a directory, parsing when the text is not JSON,
    and [edit] gives [None] when the assignment throws. *)
Definition editJson (p : string) (edit : Json.t -> option Json.t) (fs : t)
  : option t :=
  match lookup p fs with
  | Some (File (Document j)) =>
      match edit j with
      | Some j' => writeFileSync p (Document j') fs
      | None => None
      end
  | _ => None
  end.

(** An operation of the whole run: one of [steps], or the edit of a
    manifest. *)
Inductive Op : Type :=
| Plain (op : FsOp)
| EditJson (p : string) (edit : Json.t -> option Json.t).

Definition step (op : Op) (fs : t) : option t :=
  match op with
  | Plain (EnsureDir d) => ensureDirSync d fs
  | Plain (WriteFile p c) => writeFileSync p (Text c) fs
  | EditJson p edit => editJson p edit fs
  end.

(** How a sequence of operations ends: all done, or an exception at [op]
    with the file system as the earlier operations left it. *)
Inductive Outcome : Type :=
| Done (fs : t)
| Failed (fs : t) (op : Op).

Fixpoint run (ops : list Op) (fs : t) : Outcome :=
  match ops with
  | [] => Done fs
  | op :: rest =>
      match step op fs with
      | Some fs' => run rest fs'
      | None => Failed fs op
      end
  end.

End Fs.

(** ** The closing report (lines 1205-1242)

    One entry per [console.log], with the [chalk] colour it is wrapped in. *)

Inductive Chalk : Type := Cyan | Green | White | Red.

Definition report (r : Response) : list (Chalk * string) :=
  ([ (Green, "
🎉 Modern Expo boilerplate created successfully!");
     (Cyan, "
📁 Project Structure:");
     (White, "├── app/                 # Expo Router pages") ]
   ++ (if needsAuth r then
         [ (White, "│   ├── login.tsx        # Login page");
           (White, "│   ├── signup.tsx       # Signup page") ]
       else [])
   ++ (if truthy (needsBottomTabs r) then
         [ (White, "│   └── (tabs)/          # Bottom tab navigation");
           (White, "│       ├── index.tsx    # Home tab");
           (White, "│       ├── explore.tsx  # Explore tab");
           (White, "│       ├── notifications.tsx # Notifications tab");
           (White, "│       └── profile.tsx  # Profile tab") ]
       else [])
   ++ [ (White, "├── components/ui/       # Reusable UI components");
        (White, "├── constants/theme.ts   # App theme configuration");
        (White, "├── hooks/               # Custom React hooks");
        (White, "└── utils/               # Utility functions");
        (Cyan, "
🎨 Theme Colors:");
        (White, ("Primary: " ++ primary (colors r))%string);
        (White, ("Secondary: " ++ secondary (colors r))%string);
        (White, ("Font: " ++ font_value (font r))%string);
        (Cyan, "
🚀 Features Included:");
        (White, "✅ Modern reusable UI components (Text, Button, TextField)");
        (White, "✅ Layout components (SafeAreaLayout, FullScreenLayout)");
        (White, "✅ Expo Router navigation");
        (White, "✅ TailwindCSS with NativeWind");
        (White, "✅ React Hook Form integration");
        (White, "✅ Custom theme system") ]
   ++ (if needsAuth r then [ (White, "✅ Authentication pages") ] else [])
   ++ (if truthy (needsBottomTabs r) then [ (White, "✅ Bottom tab navigation") ] else [])
   ++ [ (Cyan, "
👉 Next steps:");
        (White, ("cd " ++ appName r)%string);
        (White, "npm start");
        (Cyan, "
📖 Start editing your components in the components/ui/ folder!") ])%list.

(** ** Vocabulary of the further properties *)

(** [hay.endsWith(tail)]. *)
Fixpoint ends_with (tail hay : string) : bool :=
  if String.eqb hay tail then true
  else match hay with
       | EmptyString => false
       | String _ hay' => ends_with tail hay'
       end.

(** One line [name: "value",] of a palette, as both [theme.ts] and
    [tailwind.config.js] write it. *)
Definition slot_line (name value : string) : string :=
  tpl (name ++ ": ~") ++ value ++ tpl "~,".

Definition palette (r : Response) : list (string * string) :=
  [ ("primary", primary (colors r));
    ("secondary", secondary (colors r));
    ("success", success (colors r));
    ("warning", warning (colors r));
    ("error", error (colors r));
    ("background", background (colors r));
    ("surface", surface (colors r));
    ("text", text (colors r));
    ("textSecondary", textSecondary (colors r));
    ("border", border (colors r)) ].

(** The paths a sequence of operations writes, and the directories it
    ensures with the directories above them. *)
Definition file_paths (ops : list FsOp) : list string :=
  map fst (flat_map written ops).

Definition dir_paths (ops : list FsOp) : list string :=
  flat_map (fun op => match op with
                      | EnsureDir d => Fs.chain d
                      | WriteFile _ _ => []
                      end) ops.

Definition ensured (r : Response) : list string := dir_paths (steps r).

(** The content of the last write to [p] in a sequence of operations. *)
Fixpoint last_write (p : string) (ops : list FsOp) : option string :=
  match ops with
  | [] => None
  | op :: rest =>
      match last_write p rest with
      | Some c => Some c
      | None =>
          match op with
          | WriteFile q c => if String.eqb q p then Some c else None
          | EnsureDir _ => None
          end
      end
  end.

(** Every write goes to the root or to a directory that is in [known] or was
    ensured by an earlier operation. *)
Fixpoint dirs_ready (known : list string) (ops : list FsOp) : bool :=
  match ops with
  | [] => true
  | EnsureDir d :: rest => dirs_ready (Fs.chain d ++ known)%list rest
  | WriteFile p _ :: rest =>
      (String.eqb (Fs.dirname p) "." || existsb (String.eqb (Fs.dirname p)) known)
      && dirs_ready known rest
  end.

(** The report has a line with this text. *)
Definition reports (line : string) (r : Response) : bool :=
  existsb (fun e => String.eqb (snd e) line) (report r).

(** The screens of the app: what is under [app/], the layouts apart. *)
Definition is_screen (p : string) : bool :=
  prefix "app/" p && negb (ends_with "_layout.tsx" p).

(** The root layout declares a screen of this name, and the plan has a route
    of this name: a screen file or a group with a layout. *)
Definition declares_screen (name : string) (r : Response) : bool :=
  includes (tpl ("<Stack.Screen name=~" ++ name ++ "~")) (mainLayout r).

Definition route_planned (name : string) (r : Response) : bool :=
  mem_path ("app/" ++ name ++ ".tsx") r
  || mem_path ("app/" ++ name ++ "/_layout.tsx") r.

(** The module a file's relative import names, as a path from the root. *)
Definition imported (file specifier : string) : string :=
  Fs.join2 (Fs.dirname file) specifier.

(** The file operations of [run] in full, in source order: step 3 (the
    first of [steps]), step 4 (the scheme in [app.json]), steps 5 to 17 (the
    rest of [steps]) and step 18 ([main] in [package.json]). *)
Definition whole_run (r : Response) : list Fs.Op :=
  (map Fs.Plain (firstn 1 (steps r))
   ++ [ Fs.EditJson (join ["app.json"]) (fun j => set_scheme j (appName r)) ]
   ++ map Fs.Plain (skipn 1 (steps r))
   ++ [ Fs.EditJson (join ["package.json"]) set_main ])%list.

(** The file an operation writes, if it writes one. *)
Definition target (op : Fs.Op) : list string :=
  match op with
  | Fs.Plain (WriteFile p _) => [p]
  | Fs.Plain (EnsureDir _) => []
  | Fs.EditJson p _ => [p]
  end.

Definition targets (ops : list Fs.Op) : list string := flat_map target ops.

(** A tree the operations can run on: nothing planned as a file is a
    directory, and nothing needed as a directory is a file. *)
Definition no_clash (r : Response) (fs : Fs.t) : Prop :=
  (forall p, In p (paths r) -> Fs.lookup p fs <> Some Fs.Dir) /\
  (forall d c, In d (ensured r) -> Fs.lookup d fs <> Some (Fs.File c)).

(** A tree the whole run can run on: no clash, and the two manifests are
    JSON documents on which the assignments do not throw. *)
Definition runnable (r : Response) (fs : Fs.t) : Prop :=
  no_clash r fs /\
  (exists j, Fs.lookup "app.json" fs = Some (Fs.File (Fs.Document j)) /\
             set_scheme j (appName r) <> None) /\
  (exists j, Fs.lookup "package.json" fs = Some (Fs.File (Fs.Document j)) /\
             set_main j <> None).

(** ** Proof search in templates

    A template is a chain of concatenations.  [find_between_with] finds a
    needle [a ++ x ++ b] in it, given the lemmas for [x] between two pieces
    and for skipping a piece; [find_in_head_with] finds a closed needle in
    the first piece, given the lemma for dropping what follows. *)

Ltac find_between_with more last skip :=
  first
    [ solve [apply more; vm_compute; reflexivity]
    | solve [apply last; vm_compute; reflexivity]
    | apply skip; find_between_with more last skip ].

Ltac find_in_head_with left :=
  first
    [ vm_compute; reflexivity
    | apply left; vm_compute; reflexivity ].

(** ** What the specification calls a valid name and a scheme

    These two definitions follow the words of the specification, not the
    code; the theorems below compare them with [validate] and [scheme_of]. *)

(** A character of [[A-Za-z0-9_-]]. *)
Definition allowed_char (c : ascii) : Prop :=
  (code "A" <= code c <= code "Z") \/
  (code "a" <= code c <= code "z") \/
  (code "0" <= code c <= code "9") \/
  c = "_"%char \/ c = "-"%char.

(** A match of [^[A-Za-z0-9_-]+$]: not empty, allowed characters only. *)
Definition name_ok (s : string) : Prop :=
  s <> "" /\ Forall allowed_char (list_ascii_of_string s).

(** "Lowercasing the app name and stripping non-alphanumeric characters". *)
Definition alnum_class : list ClassItem :=
  [CRange "A" "Z"; CRange "a" "z"; CRange "0" "9"].

Definition lowercase_alnum (name : string) : string :=
  toLowerCase (remove_outside alnum_class name).

(** Two lists hold the same paths. *)
Definition same_paths (l1 l2 : list string) : Prop :=
  forall p, In p l1 <-> In p l2.

(** ** Sample inputs

    The configurations of the specification's scenarios, a terminal session
    and the two manifests a fresh [blank-typescript] project comes with. *)

Definition demo (f : Font) (auth : bool) (tabs : option bool) : Response :=
  {| appName := "demo"; font := f;
     primaryColor := "#000000"; secondaryColor := "";
     needsAuth := auth; needsBottomTabs := tabs |}.

Definition plain_session : Session :=
  {| typedNames := ["my app"; "my-app"]; pickedFont := Roboto;
     typedPrimary := ""; typedSecondary := "";
     pressedAuth := None; pressedTabs := Some true |}.

Definition sample_app_json : Json.t :=
  JObject [("expo", JObject [("name", JString "demo");
                             ("slug", JString "demo");
                             ("version", JString "1.0.0")])].

Definition sample_package_json : Json.t :=
  JObject [("name", JString "demo");
           ("main", JString "index.ts");
           ("version", JString "1.0.0")].

(** ** The scheme, as the specification words it

    "Lowercasing the app name and stripping non-alphanumeric characters",
    read one character at a time: a capital letter gives its small letter,
    32 codes further; a small letter or a digit gives itself; any other
    character gives nothing. *)




(** ** Sample trees

    The tree [create-expo-app] leaves, reduced to what [run] touches, with
    the two sample manifests; the same tree with a file where [components]
    has to be a directory; and the same tree with an [app.json] that has no
    [expo] member. *)

Definition scaffold : Fs.t :=
  [ ("app.json", Fs.File (Fs.Document sample_app_json));
    ("package.json", Fs.File (Fs.Document sample_package_json));
    ("assets", Fs.Dir);
    ("App.tsx", Fs.File (Fs.Text "export default function App() {}")) ].

Definition scaffold_with_clash : Fs.t :=
  ("components", Fs.File (Fs.Text "")) :: scaffold.

Definition scaffold_without_expo : Fs.t :=
  [ ("app.json", Fs.File (Fs.Document (JObject [])));
    ("package.json", Fs.File (Fs.Document sample_package_json)) ].

(** * Properties *)

(** ** Strings and characters *)

Lemma all_chars_Forall (p : ascii -> bool) (s : string) :
  all_chars p s = true <->
  Forall (fun c => p c = true) (list_ascii_of_string s).
Proof.
  induction s as [|c s IH]; simpl.
  - split; [constructor | reflexivity].
  - rewrite andb_true_iff, IH. split.
    + intros [Hc Hs]. now constructor.
    + intros H. inversion H; subst. now split.
Qed.

Lemma name_class_allowed (c : ascii) :
  class_matches name_class c = true <-> allowed_char c.
Proof.
  unfold class_matches, name_class, allowed_char, existsb, item_matches.
  rewrite !orb_true_iff, !andb_true_iff, !Nat.leb_le, !Ascii.eqb_eq.
  intuition congruence.
Qed.

Lemma space_not_allowed : ~ allowed_char " ".
Proof.
  rewrite <- name_class_allowed. vm_compute. discriminate.
Qed.

Lemma includes_space (s : string) :
  includes " " s = true <-> In " "%char (list_ascii_of_string s).
Proof.
  induction s as [|c s IH].
  - simpl. split; [discriminate | tauto].
  - cbn [includes prefix list_ascii_of_string In].
    destruct (ascii_dec " " c) as [E|E].
    + replace (prefix "" s) with true by (destruct s; reflexivity).
      split; auto.
    + rewrite IH. split; [now right | intros [H|H]; congruence].
Qed.

Lemma test_name_ok (s : string) :
  test_class_plus name_class s = true <-> name_ok s.
Proof.
  unfold name_ok. destruct s as [|c s].
  - simpl. split; [discriminate | intros [H _]; congruence].
  - unfold test_class_plus. rewrite all_chars_Forall. split.
    + intros H. split; [discriminate|].
      eapply Forall_impl; [|exact H].
      intros a Ha. apply name_class_allowed. exact Ha.
    + intros [_ H].
      eapply Forall_impl; [|exact H].
      intros a Ha. apply name_class_allowed. exact Ha.
Qed.

Lemma validate_Valid (value : string) :
  validate value = Valid <-> name_ok value.
Proof.
  unfold validate. rewrite <- test_name_ok.
  destruct (includes " " value) eqn:Hsp.
  - split; [discriminate|]. intros Hok. exfalso.
    apply test_name_ok in Hok. destruct Hok as [_ Hall].
    apply includes_space in Hsp.
    rewrite Forall_forall in Hall. exact (space_not_allowed (Hall _ Hsp)).
  - destruct (test_class_plus name_class value); simpl;
      split; congruence.
Qed.

Lemma ask_text_checked (initial : string) (check : string -> Validation)
    (attempts : list string) (v : string) :
  ask_text initial check attempts = Some v -> check v = Valid.
Proof.
  induction attempts as [|t later IH]; simpl; [discriminate|].
  destruct (check (or_string t initial)) eqn:E; [|exact IH].
  intros H. now inversion H; subst.
Qed.

Lemma prompts_name_valid (s : Session) (r : Response) :
  prompts s = Some r -> validate (appName r) = Valid.
Proof.
  unfold prompts.
  destruct (ask_text "my-expo-app" validate (typedNames s)) as [n|] eqn:E;
    [|discriminate].
  intros H. inversion H; subst; simpl.
  exact (ask_text_checked _ _ _ _ E).
Qed.

Lemma prompts_no_auth_no_tabs (s : Session) (r : Response) :
  prompts s = Some r -> needsAuth r = false -> needsBottomTabs r = None.
Proof.
  unfold prompts.
  destruct (ask_text "my-expo-app" validate (typedNames s)); [|discriminate].
  intros H. inversion H; subst; simpl.
  destruct (ask_confirm false (pressedAuth s)); [discriminate | reflexivity].
Qed.

(** ** The plan *)

Lemma paths_shape (r : Response) :
  paths r =
  ([ "tailwind.config.js"; "constants/theme.ts"; "components/ui/Text.tsx";
     "components/ui/Button.tsx"; "components/ui/TextField.tsx";
     "components/ui/SafeAreaLayout.tsx"; "components/ui/FullScreenLayout.tsx";
     "components/ui/index.ts" ]
   ++ (if needsAuth r then ["app/login.tsx"; "app/signup.tsx"] else [])
   ++ (if truthy (needsBottomTabs r) then
         [ "app/(tabs)/_layout.tsx"; "app/(tabs)/index.tsx";
           "app/(tabs)/explore.tsx"; "app/(tabs)/notifications.tsx";
           "app/(tabs)/profile.tsx" ]
       else ["app/index.tsx"])
   ++ [ "app/_layout.tsx"; "global.css"; "metro.config.js";
        "hooks/useTheme.ts"; "utils/validation.ts" ])%list.
Proof.
  unfold paths, plan, steps.
  destruct (needsAuth r), (truthy (needsBottomTabs r)); reflexivity.
Qed.

Lemma mem_In (p : string) (l : list string) :
  existsb (String.eqb p) l = true <-> In p l.
Proof.
  rewrite existsb_exists. split.
  - intros [x [Hx E]]. apply String.eqb_eq in E. now subst.
  - intros H. exists p. split; [exact H | apply String.eqb_refl].
Qed.

Lemma same_paths_sub (l1 l2 : list string) :
  same_paths l1 l2 ->
  forallb (fun p => existsb (String.eqb p) l2) l1 = true.
Proof.
  intros H. apply forallb_forall. intros p Hp.
  apply mem_In, H, Hp.
Qed.

Lemma no_such_path (p : string) (l : list string) :
  existsb (String.eqb p) l = false -> ~ In p l.
Proof.
  intros E H. apply mem_In in H. congruence.
Qed.

Lemma layout_without_auth (r : Response) :
  needsAuth r = false ->
  (truthy (needsBottomTabs r) = false ->
     includes (tpl "<Stack.Screen name=~index~ />") (mainLayout r) = true /\
     includes (tpl "name=~(tabs)~") (mainLayout r) = false) /\
  (truthy (needsBottomTabs r) = true ->
     includes (tpl "<Stack.Screen name=~(tabs)~ options={{ headerShown: false }} />")
              (mainLayout r) = true /\
     includes (tpl "name=~index~") (mainLayout r) = false).
Proof.
  intros Ha. unfold mainLayout. rewrite Ha.
  split; intros Ht; rewrite Ht; destruct (font r); vm_compute; split; reflexivity.
Qed.

Lemma layout_with_auth (r : Response) :
  needsAuth r = true ->
  includes (tpl "<Stack.Screen name=~login~ />") (mainLayout r) = true /\
  includes (tpl "<Stack.Screen name=~signup~ />") (mainLayout r) = true /\
  includes (tpl "<Stack.Screen name=~(tabs)~ options={{ headerShown: false }} />")
           (mainLayout r) = true /\
  includes (tpl "name=~index~") (mainLayout r) = false.
Proof.
  intros Ha. unfold mainLayout. rewrite Ha.
  destruct (font r); vm_compute; repeat split; reflexivity.
Qed.

(** ** Manifests *)

Lemma lookup_assign_same (key : string) (v : Json.t)
    (members : list (string * Json.t)) :
  lookup key (assign key v members) = Some v.
Proof.
  induction members as [|[k old] rest IH]; simpl.
  - now rewrite String.eqb_refl.
  - destruct (String.eqb k key) eqn:E; simpl; rewrite E; auto.
Qed.

Lemma lookup_assign_other (key other : string) (v : Json.t)
    (members : list (string * Json.t)) :
  other <> key ->
  lookup other (assign key v members) = lookup other members.
Proof.
  intros Hne. induction members as [|[k old] rest IH]; simpl.
  - destruct (String.eqb key other) eqn:E; [|reflexivity].
    apply String.eqb_eq in E. congruence.
  - destruct (String.eqb k key) eqn:E; simpl.
    + apply String.eqb_eq in E. subst k.
      destruct (String.eqb key other) eqn:E'; [|reflexivity].
      apply String.eqb_eq in E'. congruence.
    + now rewrite IH.
Qed.

Lemma scheme_char (c : ascii) :
  class_matches scheme_class (lower_char c) = class_matches alnum_class c.
Proof.
  destruct c as [[] [] [] [] [] [] [] []]; reflexivity.
Qed.

Lemma scheme_of_lowercase_alnum (name : string) :
  scheme_of name = lowercase_alnum name.
Proof.
  unfold scheme_of, lowercase_alnum.
  induction name as [|c s IH]; [reflexivity|].
  cbn [toLowerCase remove_outside]. rewrite scheme_char.
  destruct (class_matches alnum_class c); cbn [toLowerCase]; now rewrite IH.
Qed.

(** * The claims *)

(** C1.  Whenever the questions end with [needsAuth = false], whatever the
    user does at the terminal and whatever the answer to the tabs question
    would have been, the plan holds exactly one [app/index.tsx], which is the
    non-tabbed home screen, no login or signup file and no file under
    [app/(tabs)/]; and the root layout names the [index] screen and not the
    [(tabs)] group. *)
Theorem plan_without_auth (s : Session) (r : Response) :
  prompts s = Some r ->
  needsAuth r = false ->
  count_path "app/index.tsx" r = 1 /\
  content_at "app/index.tsx" r = Some (simpleHomeScreen r) /\
  Forall (fun p => is_auth_file p = false /\ is_tab_file p = false) (paths r) /\
  includes (tpl "<Stack.Screen name=~index~ />") (mainLayout r) = true /\
  includes (tpl "name=~(tabs)~") (mainLayout r) = false.
Proof.
  intros Hs Ha.
  assert (Ht : truthy (needsBottomTabs r) = false)
    by now rewrite (prompts_no_auth_no_tabs s r Hs Ha).
  destruct (layout_without_auth r Ha) as [Lf _].
  destruct (Lf Ht) as [L1 L2]. repeat split; trivial.
  - unfold count_path. rewrite paths_shape, Ha, Ht. reflexivity.
  - unfold content_at, plan, steps. rewrite Ha, Ht. reflexivity.
  - rewrite paths_shape, Ha, Ht. repeat constructor.
Qed.

Lemma plan_without_auth_witness :
  exists r,
    prompts plain_session = Some r /\
    pressedTabs plain_session = Some true /\
    needsAuth r = false /\
    count_path "app/index.tsx" r = 1 /\
    Forall (fun p => is_auth_file p = false /\ is_tab_file p = false) (paths r).
Proof.
  eexists. split; [reflexivity|]. split; [reflexivity|]. split; [reflexivity|].
  destruct (plan_without_auth plain_session _ eq_refl eq_refl)
    as [Hcount [_ [Hfiles _]]].
  split; [exact Hcount | exact Hfiles].
Defined.

(** C2, the code at the configuration of scenario C.  With [needsAuth = true]
    and no tabs the plan holds the login and signup screens, the bare
    [app/index.tsx] and no tab file; the root layout names [login], [signup]
    and the [(tabs)] group, and does not name [index]. *)
Theorem layout_with_auth_without_tabs (r : Response) :
  needsAuth r = true ->
  truthy (needsBottomTabs r) = false ->
  mem_path "app/login.tsx" r = true /\
  mem_path "app/signup.tsx" r = true /\
  mem_path "app/index.tsx" r = true /\
  Forall (fun p => is_tab_file p = false) (paths r) /\
  includes (tpl "<Stack.Screen name=~login~ />") (mainLayout r) = true /\
  includes (tpl "<Stack.Screen name=~signup~ />") (mainLayout r) = true /\
  includes (tpl "<Stack.Screen name=~(tabs)~ options={{ headerShown: false }} />")
           (mainLayout r) = true /\
  includes (tpl "name=~index~") (mainLayout r) = false.
Proof.
  intros Ha Ht. unfold mem_path. rewrite paths_shape, Ha, Ht.
  split; [reflexivity|]. split; [reflexivity|]. split; [reflexivity|].
  split; [repeat constructor|]. exact (layout_with_auth r Ha).
Qed.

Lemma layout_with_auth_without_tabs_witness :
  needsAuth (demo Inter true (Some false)) = true /\
  truthy (needsBottomTabs (demo Inter true (Some false))) = false /\
  includes (tpl "name=~index~") (mainLayout (demo Inter true (Some false))) = false.
Proof.
  split; [reflexivity|]. split; [reflexivity|].
  apply (layout_with_auth_without_tabs (demo Inter true (Some false)) eq_refl eq_refl).
Defined.

(** C3, as amended.  When the question sequence ends with [needsAuth = false]
    the [needsBottomTabs] question was skipped: the response has no such
    field, the value read from it is falsy, and the plan is the one without
    tabs. *)
Theorem skipped_tabs_question (s : Session) (r : Response) :
  prompts s = Some r ->
  needsAuth r = false ->
  needsBottomTabs r = None /\
  truthy (needsBottomTabs r) = false /\
  mem_path "app/index.tsx" r = true /\
  Forall (fun p => is_tab_file p = false) (paths r).
Proof.
  intros Hs Ha. pose proof (prompts_no_auth_no_tabs s r Hs Ha) as Hn.
  split; [exact Hn|]. split; [now rewrite Hn|].
  unfold mem_path. rewrite paths_shape, Ha, Hn.
  split; [reflexivity | repeat constructor].
Qed.

Lemma skipped_tabs_question_witness :
  exists r, prompts plain_session = Some r /\ needsAuth r = false /\
            needsBottomTabs r = None.
Proof.
  eexists. split; [reflexivity|]. split; [reflexivity|].
  exact (proj1 (skipped_tabs_question plain_session _ eq_refl eq_refl)).
Defined.

(** C3 as the specification states it fails: a session that declines
    authentication yields a response whose [needsBottomTabs] is not [true],
    even when the user would have answered yes. *)
Lemma skipped_tabs_question_not_true :
  exists r, prompts plain_session = Some r /\ needsAuth r = false /\
            needsBottomTabs r <> Some true /\
            truthy (needsBottomTabs r) = false.
Proof.
  eexists. split; [reflexivity|]. split; [reflexivity|].
  split; [discriminate | reflexivity].
Qed.

(** C4.  The planned paths are the fixed files, the login and signup pages
    when [needsAuth] is true, and the five tab files when [needsBottomTabs]
    is true or else [app/index.tsx]: name, font and colours play no part.
    Two configurations that agree on the two flags have the same paths, and
    two configurations with the same set of paths agree on the two flags, so
    the four combinations of the two booleans give four distinct sets. *)
Theorem paths_depend_on_flags_only (r1 r2 : Response) :
  (needsAuth r1 = needsAuth r2 /\
   truthy (needsBottomTabs r1) = truthy (needsBottomTabs r2) ->
   paths r1 = paths r2) /\
  (same_paths (paths r1) (paths r2) ->
   needsAuth r1 = needsAuth r2 /\
   truthy (needsBottomTabs r1) = truthy (needsBottomTabs r2)) /\
  (forall t1 t2 : bool,
     needsBottomTabs r1 = Some t1 ->
     needsBottomTabs r2 = Some t2 ->
     (same_paths (paths r1) (paths r2) <->
      needsAuth r1 = needsAuth r2 /\ t1 = t2)) /\
  paths r1 =
  ([ "tailwind.config.js"; "constants/theme.ts"; "components/ui/Text.tsx";
     "components/ui/Button.tsx"; "components/ui/TextField.tsx";
     "components/ui/SafeAreaLayout.tsx"; "components/ui/FullScreenLayout.tsx";
     "components/ui/index.ts" ]
   ++ (if needsAuth r1 then ["app/login.tsx"; "app/signup.tsx"] else [])
   ++ match needsBottomTabs r1 with
      | Some true =>
          [ "app/(tabs)/_layout.tsx"; "app/(tabs)/index.tsx";
            "app/(tabs)/explore.tsx"; "app/(tabs)/notifications.tsx";
            "app/(tabs)/profile.tsx" ]
      | Some false | None => ["app/index.tsx"]
      end
   ++ [ "app/_layout.tsx"; "global.css"; "metro.config.js";
        "hooks/useTheme.ts"; "utils/validation.ts" ])%list.
Proof.
  assert (Hagree : needsAuth r1 = needsAuth r2 /\
            truthy (needsBottomTabs r1) = truthy (needsBottomTabs r2) ->
            paths r1 = paths r2).
  { intros [Ha Ht]. rewrite !paths_shape, Ha, Ht. reflexivity. }
  assert (Hdiffer : same_paths (paths r1) (paths r2) ->
            needsAuth r1 = needsAuth r2 /\
            truthy (needsBottomTabs r1) = truthy (needsBottomTabs r2)).
  { intros H.
    assert (H1 := same_paths_sub _ _ H).
    assert (H2 := same_paths_sub (paths r2) (paths r1)
                    (fun p => iff_sym (H p))).
    rewrite !paths_shape in H1, H2.
    destruct (needsAuth r1), (needsAuth r2),
      (truthy (needsBottomTabs r1)), (truthy (needsBottomTabs r2));
      try (split; reflexivity);
      vm_compute in H1, H2; discriminate. }
  split; [exact Hagree|]. split; [exact Hdiffer|]. split.
  - intros t1 t2 E1 E2. split.
    + intros H. destruct (Hdiffer H) as [Ha Ht].
      rewrite E1, E2 in Ht. now split.
    + intros [Ha Ht]. subst t2.
      rewrite (Hagree (conj Ha (eq_trans (f_equal truthy E1)
                                  (eq_sym (f_equal truthy E2))))).
      intros p. reflexivity.
  - rewrite paths_shape.
    destruct (needsAuth r1), (needsBottomTabs r1) as [[|]|]; reflexivity.
Qed.

(** C5.  [primary] and [secondary] are the user's strings when these are not
    empty and the defaults [#3B82F6] and [#6B7280] otherwise; the eight other
    slots are constants. *)
Theorem colors_resolution (r : Response) :
  (primaryColor r <> "" -> primary (colors r) = primaryColor r) /\
  (primaryColor r = "" -> primary (colors r) = "#3B82F6") /\
  (secondaryColor r <> "" -> secondary (colors r) = secondaryColor r) /\
  (secondaryColor r = "" -> secondary (colors r) = "#6B7280") /\
  success (colors r) = "#10B981" /\
  warning (colors r) = "#F59E0B" /\
  error (colors r) = "#EF4444" /\
  background (colors r) = "#F9FAFB" /\
  surface (colors r) = "#FFFFFF" /\
  text (colors r) = "#111827" /\
  textSecondary (colors r) = "#6B7280" /\
  border (colors r) = "#E5E7EB".
Proof.
  unfold colors; cbn [primary secondary success warning error background
                      surface text textSecondary border].
  destruct (primaryColor r), (secondaryColor r); cbn [or_string];
    repeat split; congruence.
Qed.

(** C6.  [validate] answers [true] exactly on the matches of
    [^[A-Za-z0-9_-]+$].  A name with a space, or with any character outside
    the class, gets a message.  A valid name submitted to the question is the
    [appName] of the response, unchanged; and no run plans files for a name
    that is not valid. *)
Theorem validate_accepts_exactly_valid_names (value : string) :
  (validate value = Valid <-> name_ok value) /\
  (In " "%char (list_ascii_of_string value) ->
   validate value =
   Invalid "App name cannot contain spaces. Use hyphens or underscores instead.") /\
  (Exists (fun c => ~ allowed_char c) (list_ascii_of_string value) ->
   exists message, validate value = Invalid message) /\
  (name_ok value ->
   forall later f p s a t,
     exists r, prompts (mkSession (value :: later) f p s a t) = Some r /\
               appName r = value) /\
  (~ name_ok value ->
   forall s r files, generate s = Some (r, files) -> appName r <> value).
Proof.
  split; [apply validate_Valid|]. split; [|split; [|split]].
  - intros Hsp. apply includes_space in Hsp.
    unfold validate. now rewrite Hsp.
  - intros Hex. destruct (validate value) as [|m] eqn:E; [|now exists m].
    exfalso. apply validate_Valid in E. destruct E as [_ Hall].
    rewrite Forall_forall in Hall. apply Exists_exists in Hex.
    destruct Hex as [c [Hin Hno]]. exact (Hno (Hall c Hin)).
  - intros Hok later f p s a t.
    assert (Hv : validate value = Valid) by now apply validate_Valid.
    unfold prompts; cbn [typedNames ask_text].
    destruct value as [|c v]; [destruct Hok as [Hne _]; congruence|].
    cbn [or_string]. rewrite Hv. eexists. split; reflexivity.
  - intros Hno s r files Hg Hname. apply Hno. rewrite <- Hname.
    apply validate_Valid. unfold generate in Hg.
    destruct (prompts s) as [r'|] eqn:E; [|discriminate].
    inversion Hg; subst. exact (prompts_name_valid s r E).
Qed.






(** C8.  With [needsAuth = true] the plan writes [loginPage] and
    [signupPage], the same text for every configuration.  In both, the
    handler given to [handleSubmit] ends with [router.replace("/(tabs)")] and
    that is the page's only [router.replace]; and when [needsBottomTabs] is
    false the plan has no file under [app/(tabs)/]. *)
Theorem auth_pages_navigate_to_tabs (r : Response) :
  needsAuth r = true ->
  content_at "app/login.tsx" r = Some loginPage /\
  content_at "app/signup.tsx" r = Some signupPage /\
  includes (tpl "  const onSubmit = (data: LoginForm) => {
    console.log(~Login data:~, data);
    // TODO: Implement authentication logic
    router.replace(~/(tabs)~);
  };") loginPage = true /\
  includes (tpl "  const onSubmit = (data: SignupForm) => {
    console.log(~Signup data:~, data);
    // TODO: Implement registration logic
    router.replace(~/(tabs)~);
  };") signupPage = true /\
  includes "onPress={handleSubmit(onSubmit)}" loginPage = true /\
  includes "onPress={handleSubmit(onSubmit)}" signupPage = true /\
  occurrences "router.replace(" loginPage = 1 /\
  occurrences "router.replace(" signupPage = 1 /\
  (truthy (needsBottomTabs r) = false ->
   Forall (fun p => is_tab_file p = false) (paths r)).
Proof.
  intros Ha.
  split; [unfold content_at, plan, steps; rewrite Ha;
          destruct (truthy (needsBottomTabs r)); reflexivity|].
  split; [unfold content_at, plan, steps; rewrite Ha;
          destruct (truthy (needsBottomTabs r)); reflexivity|].
  do 6 (split; [vm_compute; reflexivity|]).
  intros Ht. rewrite paths_shape, Ha, Ht. repeat constructor.
Qed.

Lemma auth_pages_navigate_to_tabs_witness :
  needsAuth (demo Roboto true (Some false)) = true /\
  content_at "app/login.tsx" (demo Roboto true (Some false)) = Some loginPage /\
  Forall (fun p => is_tab_file p = false) (paths (demo Roboto true (Some false))).
Proof.
  split; [reflexivity|].
  pose proof (auth_pages_navigate_to_tabs (demo Roboto true (Some false)) eq_refl)
    as H.
  split; [exact (proj1 H)|].
  exact (proj2 (proj2 (proj2 (proj2 (proj2 (proj2 (proj2 (proj2 H)))))))
           eq_refl).
Defined.

(** C9.  [Button.tsx] is the same text for every configuration.  Its loading
    branch reads [colors.primary] and [colors.surface]; these are the only
    two places where the word [colors] occurs in the file, so nothing in it
    imports or defines [colors]: its three imports are [React], the
    [react-native] components and [./Text].  No colour value of the palette
    is written into it: the file holds no [#] at all. *)
Theorem button_reads_undefined_colors (r : Response) :
  content_at "components/ui/Button.tsx" r = Some buttonComponent /\
  includes (tpl "      {loading ? (
        <ActivityIndicator color={variant === ~outline~ || variant === ~ghost~ ? colors.primary : colors.surface} />
      ) : (") buttonComponent = true /\
  occurrences "colors.primary" buttonComponent = 1 /\
  occurrences "colors.surface" buttonComponent = 1 /\
  occurrences "colors" buttonComponent = 2 /\
  occurrences "import " buttonComponent = 3 /\
  includes (tpl "
import React from ~react~;
import { TouchableOpacity, TouchableOpacityProps, ActivityIndicator } from ~react-native~;
import Text from ~./Text~;
") buttonComponent = true /\
  includes "#" buttonComponent = false.
Proof.
  split; [unfold content_at, plan, steps;
          destruct (needsAuth r), (truthy (needsBottomTabs r)); reflexivity|].
  vm_compute. repeat split.
Qed.

(** C10.  ["_-_"] passes validation and its scheme is the empty string;
    more generally so does every non-empty name made of hyphens and
    underscores only. *)
Theorem valid_name_with_empty_scheme :
  validate "_-_" = Valid /\
  name_ok "_-_" /\
  "_-_" <> "" /\
  scheme_of "_-_" = "" /\
  (exists appJson',
     set_scheme sample_app_json "_-_" = Some appJson' /\
     (exists expo', get "expo" appJson' = Some (JObject expo') /\
                    lookup "scheme" expo' = Some (JString ""))) /\
  (forall name,
     name <> "" ->
     all_chars (fun c => Ascii.eqb c "-" || Ascii.eqb c "_") name = true ->
     validate name = Valid /\ scheme_of name = "").
Proof.
  split; [reflexivity|]. split; [now apply validate_Valid|].
  split; [discriminate|]. split; [reflexivity|]. split.
  - eexists. split; [reflexivity|]. eexists. split; reflexivity.
  - intros name Hne Hall.
    assert (Hchars : Forall (fun c => c = "-"%char \/ c = "_"%char)
                            (list_ascii_of_string name)).
    { apply all_chars_Forall in Hall.
      eapply Forall_impl; [|exact Hall]. cbv beta. intros c Hc.
      apply orb_true_iff in Hc. rewrite !Ascii.eqb_eq in Hc. exact Hc. }
    split.
    + apply validate_Valid. split; [exact Hne|].
      eapply Forall_impl; [|exact Hchars]. cbv beta.
      unfold allowed_char. intros c [H|H]; subst; tauto.
    + clear Hne Hall. unfold scheme_of.
      induction name as [|c s IH]; [reflexivity|].
      cbn [list_ascii_of_string] in Hchars. inversion Hchars; subst.
      cbn [toLowerCase remove_outside].
      replace (class_matches scheme_class (lower_char c)) with false
        by (destruct H1; subst; reflexivity).
      now apply IH.
Qed.

(** ** The scenarios of the specification, evaluated *)

Example scenario_a :
  paths (demo Inter false None) =
  [ "tailwind.config.js"; "constants/theme.ts"; "components/ui/Text.tsx";
    "components/ui/Button.tsx"; "components/ui/TextField.tsx";
    "components/ui/SafeAreaLayout.tsx"; "components/ui/FullScreenLayout.tsx";
    "components/ui/index.ts"; "app/index.tsx"; "app/_layout.tsx";
    "global.css"; "metro.config.js"; "hooks/useTheme.ts";
    "utils/validation.ts" ] /\
  includes "Welcome to demo!" (simpleHomeScreen (demo Inter false None)) = true.
Proof. vm_compute. split; reflexivity. Qed.

Example scenario_b :
  filter (fun p => is_auth_file p || is_tab_file p)
         (paths (demo Roboto true (Some true))) =
  [ "app/login.tsx"; "app/signup.tsx"; "app/(tabs)/_layout.tsx";
    "app/(tabs)/index.tsx"; "app/(tabs)/explore.tsx";
    "app/(tabs)/notifications.tsx"; "app/(tabs)/profile.tsx" ] /\
  includes (tpl "~Roboto~: require(~expo-google-fonts/roboto~).Roboto,")
           (mainLayout (demo Roboto true (Some true))) = true.
Proof. vm_compute. split; reflexivity. Qed.

Example scenario_d :
  primary (colors (demo Inter false None)) = "#000000" /\
  secondary (colors (demo Inter false None)) = "#6B7280".
Proof. split; reflexivity. Qed.

Example validate_samples :
  validate "demo" = Valid /\
  validate "My_App-2" = Valid /\
  validate "my app" =
    Invalid "App name cannot contain spaces. Use hyphens or underscores instead." /\
  validate "my.app" =
    Invalid "App name can only contain letters, numbers, hyphens, and underscores." /\
  validate "" =
    Invalid "App name can only contain letters, numbers, hyphens, and underscores." /\
  scheme_of "My_App-2" = "myapp2".
Proof. repeat split. Qed.

Example session_retries_name :
  prompts plain_session =
  Some {| appName := "my-app"; font := Roboto;
          primaryColor := ""; secondaryColor := "";
          needsAuth := false; needsBottomTabs := None |}.
Proof. reflexivity. Qed.

Example default_tabs_when_asked :
  option_map needsBottomTabs
    (prompts {| typedNames := [""]; pickedFont := Inter;
                typedPrimary := ""; typedSecondary := "";
                pressedAuth := Some true; pressedTabs := None |})
  = Some (Some true).
Proof. reflexivity. Qed.

(** * Further properties of [run] *)

(** ** Searching in concatenations *)

Lemma append_assoc (a b c : string) : (a ++ b) ++ c = a ++ b ++ c.
Proof.
  induction a as [|x a IH]; simpl; [reflexivity | now rewrite IH].
Qed.

Lemma prefix_split (b l : string) :
  prefix b l = true -> exists q, l = b ++ q.
Proof.
  revert l. induction b as [|x b IH]; intros l H.
  - now exists l.
  - destruct l as [|y l]; [discriminate|]. simpl in H.
    destruct (ascii_dec x y) as [E|E]; [|discriminate]. subst y.
    destruct (IH l H) as [q Hq]. exists q. simpl. now rewrite <- Hq.
Qed.

Lemma prefix_append (b q : string) : prefix b (b ++ q) = true.
Proof.
  induction b as [|x b IH]; simpl.
  - now destruct q.
  - destruct (ascii_dec x x) as [_|E]; [exact IH | congruence].
Qed.

Lemma ends_with_split (a l : string) :
  ends_with a l = true -> exists p, l = p ++ a.
Proof.
  induction l as [|y l IH]; cbn [ends_with].
  - destruct (String.eqb "" a) eqn:E; [|discriminate].
    apply String.eqb_eq in E. subst a. now exists "".
  - destruct (String.eqb (String y l) a) eqn:E.
    + apply String.eqb_eq in E. subst a. now exists "".
    + intros H. destruct (IH H) as [p Hp]. exists (String y p).
      simpl. now rewrite <- Hp.
Qed.

Lemma includes_prefix (n h : string) :
  prefix n h = true -> includes n h = true.
Proof.
  intros H. destruct h; cbn [includes]; now rewrite H.
Qed.

Lemma includes_skip (n p h : string) :
  includes n h = true -> includes n (p ++ h) = true.
Proof.
  intros H. induction p as [|x p IH]; [exact H|].
  cbn [append includes]. rewrite IH. now destruct (prefix n (String x (p ++ h))).
Qed.

(** A needle [a ++ x ++ b] is found where [x] sits between a text ending
    with [a] and a text starting with [b]. *)
Lemma includes_between (a x b l1 l2 : string) :
  ends_with a l1 = true ->
  prefix b l2 = true ->
  includes (a ++ x ++ b) (l1 ++ x ++ l2) = true.
Proof.
  intros Ha Hb.
  destruct (ends_with_split _ _ Ha) as [p Hp].
  destruct (prefix_split _ _ Hb) as [q Hq]. subst l1 l2.
  rewrite append_assoc. apply includes_skip.
  replace (a ++ x ++ b ++ q) with ((a ++ x ++ b) ++ q)
    by now rewrite !append_assoc.
  apply includes_prefix, prefix_append.
Qed.

Lemma includes_between_more (a x b l1 m rest : string) :
  ends_with a l1 = true ->
  prefix b m = true ->
  includes (a ++ x ++ b) (l1 ++ x ++ m ++ rest) = true.
Proof.
  intros Ha Hb. apply includes_between; [exact Ha|].
  destruct (prefix_split _ _ Hb) as [q Hq]. subst m.
  rewrite append_assoc. apply prefix_append.
Qed.

(** ** Interpolated values reach the files verbatim *)

(** X1.  The palette of [constants/theme.ts] and the one of
    [tailwind.config.js] are the same: for each of the ten slots both files
    hold the line [slot: "value",] with the resolved value, whatever the
    user typed. *)
Theorem palette_written_twice (r : Response) :
  content_at "constants/theme.ts" r = Some (themeFile r) /\
  content_at "tailwind.config.js" r = Some (tailwindConfig r) /\
  Forall (fun s => includes (slot_line (fst s) (snd s)) (themeFile r) = true /\
                   includes (slot_line (fst s) (snd s)) (tailwindConfig r) = true)
         (palette r) /\
  includes (tpl "fontFamily: ~" ++ font_value (font r) ++ tpl "~,")
           (themeFile r) = true /\
  includes (tpl "sans: [~" ++ font_value (font r) ++ tpl "~],")
           (tailwindConfig r) = true.
Proof.
  split; [|split].
  - unfold content_at, plan, steps.
    destruct (needsAuth r), (truthy (needsBottomTabs r)); reflexivity.
  - unfold content_at, plan, steps.
    destruct (needsAuth r), (truthy (needsBottomTabs r)); reflexivity.
  - unfold palette, slot_line, themeFile, tailwindConfig.
    cbn [fst snd].
    split;
      [|split;
        find_between_with includes_between_more includes_between includes_skip].
    repeat (apply Forall_cons;
            [split;
             find_between_with includes_between_more includes_between
                               includes_skip|]).
    apply Forall_nil.
Qed.

(** X2.  The home screen of every plan greets with the app name as typed.
    There is exactly one home screen, [app/index.tsx] or
    [app/(tabs)/index.tsx]; with tabs, the notifications screen also
    carries the name. *)
Theorem home_screen_names_the_app (r : Response) :
  count_path "app/index.tsx" r + count_path "app/(tabs)/index.tsx" r = 1 /\
  (exists p c,
     (p = "app/index.tsx" \/ p = "app/(tabs)/index.tsx") /\
     content_at p r = Some c /\
     includes ("Welcome to " ++ appName r ++ "!") c = true) /\
  (truthy (needsBottomTabs r) = true ->
   exists c, content_at "app/(tabs)/notifications.tsx" r = Some c /\
             includes ("Thanks for using " ++ appName r ++ tpl "~, time:") c
             = true).
Proof.
  split; [|split].
  - unfold count_path. rewrite paths_shape.
    destruct (needsAuth r), (truthy (needsBottomTabs r)); reflexivity.
  - destruct (truthy (needsBottomTabs r)) eqn:Ht.
    + exists "app/(tabs)/index.tsx", (homeScreen r).
      split; [now right|]. split.
      * unfold content_at, plan, steps. rewrite Ht.
        destruct (needsAuth r); reflexivity.
      * unfold homeScreen.
        find_between_with includes_between_more includes_between includes_skip.
    + exists "app/index.tsx", (simpleHomeScreen r).
      split; [now left|]. split.
      * unfold content_at, plan, steps. rewrite Ht.
        destruct (needsAuth r); reflexivity.
      * unfold simpleHomeScreen.
        find_between_with includes_between_more includes_between includes_skip.
  - intros Ht. exists (notificationsScreen r). split.
    + unfold content_at, plan, steps. rewrite Ht.
      destruct (needsAuth r); reflexivity.
    + unfold notificationsScreen.
        find_between_with includes_between_more includes_between includes_skip.
Qed.

(** ** The scheme *)

Lemma remove_outside_in_class (cls : list ClassItem) (s : string) :
  all_chars (class_matches cls) (remove_outside cls s) = true.
Proof.
  induction s as [|c s IH]; [reflexivity|]. cbn [remove_outside].
  destruct (class_matches cls c) eqn:E; [|exact IH].
  cbn [all_chars]. now rewrite E, IH.
Qed.

Lemma remove_outside_fixed (cls : list ClassItem) (s : string) :
  all_chars (class_matches cls) s = true -> remove_outside cls s = s.
Proof.
  induction s as [|c s IH]; [reflexivity|]. cbn [all_chars remove_outside].
  intros H. apply andb_true_iff in H. destruct H as [Hc Hs].
  now rewrite Hc, IH.
Qed.

Lemma lower_char_scheme (c : ascii) :
  class_matches scheme_class c = true -> lower_char c = c.
Proof.
  destruct c as [[] [] [] [] [] [] [] []]; vm_compute; congruence.
Qed.

Lemma toLowerCase_fixed (s : string) :
  all_chars (class_matches scheme_class) s = true -> toLowerCase s = s.
Proof.
  induction s as [|c s IH]; [reflexivity|]. cbn [all_chars toLowerCase].
  intros H. apply andb_true_iff in H. destruct H as [Hc Hs].
  now rewrite (lower_char_scheme c Hc), IH.
Qed.

Lemma remove_outside_length (cls : list ClassItem) (s : string) :
  String.length (remove_outside cls s) <= String.length s.
Proof.
  induction s as [|c s IH]; [apply le_n|]. cbn [remove_outside].
  destruct (class_matches cls c); simpl; lia.
Qed.

Lemma toLowerCase_length (s : string) :
  String.length (toLowerCase s) = String.length s.
Proof.
  induction s as [|c s IH]; simpl; congruence.
Qed.

Lemma remove_outside_empty (cls : list ClassItem) (s : string) :
  remove_outside cls s = "" <->
  all_chars (fun c => negb (class_matches cls c)) s = true.
Proof.
  induction s as [|c s IH]; [now split|]. cbn [remove_outside all_chars].
  destruct (class_matches cls c); simpl.
  - split; discriminate.
  - exact IH.
Qed.

Lemma scheme_class_allowed (c : ascii) :
  class_matches scheme_class c = true -> class_matches name_class c = true.
Proof.
  destruct c as [[] [] [] [] [] [] [] []]; vm_compute; congruence.
Qed.

Lemma validate_all_chars (value : string) :
  validate value = Valid ->
  all_chars (class_matches name_class) value = true.
Proof.
  unfold validate. destruct (includes " " value); [discriminate|].
  destruct (test_class_plus name_class value) eqn:T; [|discriminate].
  intros _. now destruct value.
Qed.

Lemma not_alnum_in_name (c : ascii) :
  class_matches name_class c = true ->
  negb (class_matches alnum_class c) = (Ascii.eqb c "-" || Ascii.eqb c "_").
Proof.
  destruct c as [[] [] [] [] [] [] [] []]; vm_compute;
    intros H; try discriminate H; reflexivity.
Qed.

Lemma all_chars_agree (f g h : ascii -> bool) (s : string) :
  (forall c, h c = true -> f c = g c) ->
  all_chars h s = true -> all_chars f s = all_chars g s.
Proof.
  intros Hfg. induction s as [|c s IH]; [reflexivity|]. cbn [all_chars].
  intros H. apply andb_true_iff in H. destruct H as [Hc Hs].
  now rewrite (Hfg c Hc), (IH Hs).
Qed.

(** X3.  For a name [validate] accepts, the scheme holds characters of
    [[a-z0-9]] only and is no longer than the name; taking the scheme of
    the scheme changes nothing; the scheme is empty exactly when the name is
    made of hyphens and underscores only; and a scheme that is not empty is
    itself a name [validate] accepts. *)
Theorem scheme_of_shape (name : string) :
  validate name = Valid ->
  all_chars (class_matches scheme_class) (scheme_of name) = true /\
  String.length (scheme_of name) <= String.length name /\
  scheme_of (scheme_of name) = scheme_of name /\
  (scheme_of name = "" <->
   all_chars (fun c => Ascii.eqb c "-" || Ascii.eqb c "_") name = true) /\
  (scheme_of name <> "" <-> validate (scheme_of name) = Valid).
Proof.
  intros Hvalid.
  assert (Hcls : all_chars (class_matches scheme_class) (scheme_of name) = true)
    by apply remove_outside_in_class.
  split; [exact Hcls|]. split; [|split; [|split]].
  - unfold scheme_of.
    rewrite <- (toLowerCase_length name). apply remove_outside_length.
  - unfold scheme_of at 1.
    now rewrite (toLowerCase_fixed _ Hcls), (remove_outside_fixed _ _ Hcls).
  - rewrite <- (all_chars_agree _ _ _ name not_alnum_in_name
                  (validate_all_chars name Hvalid)).
    rewrite scheme_of_lowercase_alnum. unfold lowercase_alnum.
    rewrite <- remove_outside_empty.
    destruct (remove_outside alnum_class name); simpl; split; congruence.
  - rewrite validate_Valid. unfold name_ok. split.
    + intros Hne. split; [exact Hne|].
      apply all_chars_Forall in Hcls.
      eapply Forall_impl; [|exact Hcls]. cbv beta. intros c Hc.
      apply name_class_allowed, scheme_class_allowed, Hc.
    + now intros [Hne _].
Qed.

Lemma scheme_of_shape_witness :
  validate "My-App_2" = Valid /\
  scheme_of (scheme_of "My-App_2") = scheme_of "My-App_2" /\
  validate (scheme_of "My-App_2") = Valid.
Proof.
  split; [reflexivity|].
  destruct (scheme_of_shape "My-App_2" eq_refl) as [_ [_ [Hidem [_ Hvalid]]]].
  split; [exact Hidem|]. apply Hvalid. discriminate.
Defined.

(** ** The two messages of [validate] *)

(** X4.  [validate] has three outcomes.  A value with a space gets the
    message about spaces, whatever else is wrong with it; a value without a
    space that is empty or has a character outside the class gets the
    message about letters; every other value is accepted. *)
Theorem validate_messages (value : string) :
  (validate value =
   Invalid "App name cannot contain spaces. Use hyphens or underscores instead."
   <-> In " "%char (list_ascii_of_string value)) /\
  (validate value =
   Invalid "App name can only contain letters, numbers, hyphens, and underscores."
   <-> ~ In " "%char (list_ascii_of_string value) /\ ~ name_ok value) /\
  (forall message, validate value = Invalid message ->
     message = "App name cannot contain spaces. Use hyphens or underscores instead." \/
     message = "App name can only contain letters, numbers, hyphens, and underscores.").
Proof.
  pose proof (includes_space value) as Hsp.
  pose proof (test_name_ok value) as Hok.
  unfold validate.
  destruct (includes " " value) eqn:E.
  - split; [|split].
    + split; [intros _; now apply Hsp | reflexivity].
    + split; [discriminate|]. intros [Hno _]. exfalso. now apply Hno, Hsp.
    + intros m H. left. congruence.
  - assert (Hno : ~ In " "%char (list_ascii_of_string value)).
    { intros H. apply Hsp in H. discriminate. }
    destruct (test_class_plus name_class value) eqn:T; cbn [negb].
    + split; [|split].
      * split; [discriminate | intros H; contradiction].
      * split; [discriminate|]. intros [_ H]. exfalso. now apply H, Hok.
      * discriminate.
    + split; [|split].
      * split; [discriminate | intros H; contradiction].
      * split; [|reflexivity]. intros _. split; [exact Hno|].
        intros H. apply Hok in H. discriminate.
      * intros m H. right. congruence.
Qed.

(** ** The question sequence *)

(** X5.  When the name question is answered, the answer passes [validate]
    and is the first submitted line that does, an empty line standing for
    [my-expo-app]; the lines before it are not empty and were refused.
    Conversely, the first submitted line that passes is the answer, whatever
    comes after it. *)
Theorem first_valid_name_wins (s : Session) :
  (forall r, prompts s = Some r ->
     validate (appName r) = Valid /\
     exists refused typed later,
       typedNames s = (refused ++ typed :: later)%list /\
       appName r = or_string typed "my-expo-app" /\
       validate (or_string typed "my-expo-app") = Valid /\
       Forall (fun t => t <> "" /\ validate t <> Valid) refused) /\
  (forall refused typed later,
     typedNames s = (refused ++ typed :: later)%list ->
     Forall (fun t => t <> "" /\ validate t <> Valid) refused ->
     validate (or_string typed "my-expo-app") = Valid ->
     exists r, prompts s = Some r /\
               appName r = or_string typed "my-expo-app").
Proof.
  unfold prompts.
  assert (Hbad : forall t, validate (or_string t "my-expo-app") <> Valid ->
                           t <> "" /\ validate t <> Valid).
  { intros t H. destruct t; [now elim H|]. split; [discriminate | exact H]. }
  induction (typedNames s) as [|t l IH]; cbn [ask_text].
  - split; [discriminate|].
    intros refused typed later H. now destruct refused.
  - destruct (validate (or_string t "my-expo-app")) as [|m] eqn:E.
    + split.
      * intros r H. inversion H; subst; cbn [appName].
        split; [exact E|]. exists [], t, l. repeat split; trivial.
      * intros refused typed later Hl Hrefused Hvalid.
        destruct refused as [|t' refused]; cbn [app] in Hl;
          inversion Hl; subst.
        -- eexists. split; reflexivity.
        -- exfalso. inversion Hrefused as [|? ? [Hne Hv] _]; subst.
           destruct t'; [now apply Hne|]. now apply Hv.
    + assert (Ht : t <> "" /\ validate t <> Valid)
        by (apply Hbad; rewrite E; discriminate).
      destruct IH as [IH1 IH2]. split.
      * intros r H. destruct (IH1 r H)
          as [Hvalid [refused [typed [later [Hl [Hn [Hv Hr]]]]]]].
        split; [exact Hvalid|].
        exists (t :: refused), typed, later. split; [now rewrite Hl|].
        split; [exact Hn|]. split; [exact Hv|]. now constructor.
      * intros refused typed later Hl Hrefused Hvalid.
        destruct refused as [|t' refused]; cbn [app] in Hl;
          inversion Hl; subst.
        -- rewrite E in Hvalid. discriminate.
        -- apply (IH2 refused typed later eq_refl); [|exact Hvalid].
           now inversion Hrefused.
Qed.

(** ** The packages installed *)

(** X6.  [npm install] is given ten distinct packages: nine fixed ones and,
    last, [expo-google-fonts-] followed by the font in lower case.  The root
    layout loads the font from the module [expo-google-fonts/] followed by
    the font in lower case, its only [require], and neither that module path
    nor [expo-google-fonts] is among the packages installed. *)
Theorem font_package_is_not_the_module_loaded (r : Response) :
  let lower := toLowerCase (font_value (font r)) in
  length (dependencies r) = 10 /\
  NoDup (dependencies r) /\
  removelast (dependencies r) =
    [ "nativewind"; "tailwindcss"; "react-hook-form"; "expo-font";
      "expo-router"; "expo-splash-screen"; "expo-status-bar";
      "react-native-safe-area-context"; "react-native-screens" ] /\
  last (dependencies r) "" = "expo-google-fonts-" ++ lower /\
  In ("expo-google-fonts-" ++ lower) (dependencies r) /\
  In lower ["inter"; "poppins"; "montserrat"; "roboto"; "lato"] /\
  includes (tpl "require(~expo-google-fonts/" ++ lower ++ tpl "~)")
           (mainLayout r) = true /\
  occurrences "require(" (mainLayout r) = 1 /\
  ~ In ("expo-google-fonts/" ++ lower) (dependencies r) /\
  ~ In "expo-google-fonts" (dependencies r).
Proof.
  cbv zeta. split; [reflexivity|].
  split; [|split; [|split; [|split; [|split; [|split; [|split; [|split]]]]]]].
  - unfold dependencies. destruct (font r); cbn [font_value];
      repeat (constructor; [apply no_such_path; reflexivity|]); constructor.
  - reflexivity.
  - reflexivity.
  - unfold dependencies. apply mem_In. destruct (font r); reflexivity.
  - apply mem_In. destruct (font r); reflexivity.
  - unfold mainLayout.
    destruct (font r), (needsAuth r), (truthy (needsBottomTabs r));
      vm_compute; reflexivity.
  - unfold mainLayout.
    destruct (font r), (needsAuth r), (truthy (needsBottomTabs r));
      vm_compute; reflexivity.
  - apply no_such_path. destruct (font r); reflexivity.
  - apply no_such_path. destruct (font r); reflexivity.
Qed.

(** ** Files that name each other *)

(** X7.  Every plan writes each path once, 14 to 20 files in all.  Under
    [components/] it writes the five component files and their index, no
    other file, and the index re-exports those five components and nothing
    else.  With tabs, the four screens the tab layout names are the four
    screen files under [app/(tabs)/]. *)
Theorem plan_is_consistent (r : Response) :
  NoDup (paths r) /\
  length (plan r) =
    14 + (if needsAuth r then 2 else 0)
       + (if truthy (needsBottomTabs r) then 4 else 0) /\
  filter (prefix "components/") (paths r) =
    [ "components/ui/Text.tsx"; "components/ui/Button.tsx";
      "components/ui/TextField.tsx"; "components/ui/SafeAreaLayout.tsx";
      "components/ui/FullScreenLayout.tsx"; "components/ui/index.ts" ] /\
  content_at "components/ui/index.ts" r = Some componentsIndex /\
  occurrences "export " componentsIndex = 5 /\
  Forall (fun n =>
            includes (tpl ("export { default as " ++ n ++ " } from ~./" ++ n ++ "~;"))
                     componentsIndex = true /\
            In ("components/ui/" ++ n ++ ".tsx") (paths r))
         ["Text"; "Button"; "TextField"; "SafeAreaLayout"; "FullScreenLayout"] /\
  occurrences "<Tabs.Screen" tabsLayout = 4 /\
  (truthy (needsBottomTabs r) = true ->
   content_at "app/(tabs)/_layout.tsx" r = Some tabsLayout /\
   Forall (fun n =>
             includes (tpl ("<Tabs.Screen
        name=~" ++ n ++ "~")) tabsLayout = true /\
             In ("app/(tabs)/" ++ n ++ ".tsx") (paths r))
          ["index"; "explore"; "notifications"; "profile"] /\
   length (filter is_tab_file (paths r)) = 5).
Proof.
  split; [|split; [|split; [|split; [|split; [|split; [|split]]]]]].
  - rewrite paths_shape.
    destruct (needsAuth r), (truthy (needsBottomTabs r));
      repeat (constructor; [apply no_such_path; reflexivity|]); constructor.
  - unfold plan, steps.
    destruct (needsAuth r), (truthy (needsBottomTabs r)); reflexivity.
  - rewrite paths_shape.
    destruct (needsAuth r), (truthy (needsBottomTabs r)); reflexivity.
  - unfold content_at, plan, steps.
    destruct (needsAuth r), (truthy (needsBottomTabs r)); reflexivity.
  - vm_compute; reflexivity.
  - rewrite paths_shape.
    repeat (apply Forall_cons;
            [split; [vm_compute; reflexivity
                    | apply mem_In;
                      destruct (needsAuth r), (truthy (needsBottomTabs r));
                      reflexivity]|]).
    apply Forall_nil.
  - vm_compute; reflexivity.
  - intros Ht. split; [|split].
    + unfold content_at, plan, steps. rewrite Ht.
      destruct (needsAuth r); reflexivity.
    + rewrite paths_shape, Ht.
      repeat (apply Forall_cons;
              [split; [vm_compute; reflexivity
                      | apply mem_In; destruct (needsAuth r); reflexivity]|]).
      apply Forall_nil.
    + rewrite paths_shape, Ht. destruct (needsAuth r); reflexivity.
Qed.

(** ** Manifests, edited again *)

Lemma assign_assign (key : string) (v1 v2 : Json.t)
    (members : list (string * Json.t)) :
  assign key v2 (assign key v1 members) = assign key v2 members.
Proof.
  induction members as [|[k old] rest IH]; simpl.
  - now rewrite String.eqb_refl.
  - destruct (String.eqb k key) eqn:E; simpl; rewrite E;
      [reflexivity | now rewrite IH].
Qed.

(** X8.  [appJson.expo.scheme = ...] throws exactly when [app.json] has no
    [expo] object (or array) to set it on.  When it succeeds, doing the same
    edit on the result changes nothing, a later edit with another name gives
    what that edit gives on the original, and every member of [app.json]
    other than [expo] is as it was.  The same holds of [main] in
    [package.json]. *)
Theorem manifest_edits_repeat (appJson packageJson : Json.t)
    (name other : string) :
  (set_scheme appJson name = None <->
   (forall e, get "expo" appJson <> Some (JObject e)) /\
   (forall a, get "expo" appJson <> Some (JArray a))) /\
  (forall appJson',
     set_scheme appJson name = Some appJson' ->
     set_scheme appJson' name = Some appJson' /\
     set_scheme appJson' other = set_scheme appJson other /\
     (forall k, k <> "expo" -> get k appJson' = get k appJson)) /\
  (forall packageJson',
     set_main packageJson = Some packageJson' ->
     set_main packageJson' = Some packageJson' /\
     (forall k, k <> "main" -> get k packageJson' = get k packageJson)).
Proof.
  split; [|split].
  - unfold set_scheme.
    destruct appJson as [| | | | |members]; cbn [get];
      try (split; [intros _; split; discriminate | reflexivity]).
    destruct (lookup "expo" members) as [[| | | |items|expo]|];
      try (split; [intros _; split; discriminate | reflexivity]).
    + split; [discriminate|]. intros [_ H]. now elim (H items).
    + split; [discriminate|]. intros [H _]. now elim (H expo).
  - intros j' H. unfold set_scheme in H.
    destruct appJson as [| | | | |members]; try discriminate H.
    destruct (lookup "expo" members) as [[| | | |items|expo]|] eqn:E;
      try discriminate H; inversion H; subst j'; clear H.
    + unfold set_scheme. rewrite E. repeat split.
    + unfold set_scheme. rewrite lookup_assign_same, E, !assign_assign.
      split; [reflexivity|]. split; [reflexivity|].
      intros k Hk. cbn [get]. now apply lookup_assign_other.
  - intros p' H. unfold set_main in H.
    destruct packageJson as [| | | |items|members]; try discriminate H;
      inversion H; subst p'; clear H.
    + split; [reflexivity | reflexivity].
    + unfold set_main. rewrite assign_assign. split; [reflexivity|].
      intros k Hk. cbn [get]. now apply lookup_assign_other.
Qed.

(** ** Running the operations *)

Lemma fs_lookup_set_same (p : string) (n : Fs.Node) (fs : Fs.t) :
  Fs.lookup p (Fs.set p n fs) = Some n.
Proof.
  induction fs as [|[q old] rest IH]; simpl.
  - now rewrite String.eqb_refl.
  - destruct (String.eqb q p) eqn:E; simpl; rewrite E; auto.
Qed.

Lemma fs_lookup_set_other (p q : string) (n : Fs.Node) (fs : Fs.t) :
  q <> p -> Fs.lookup q (Fs.set p n fs) = Fs.lookup q fs.
Proof.
  intros Hne. induction fs as [|[k old] rest IH]; simpl.
  - destruct (String.eqb_spec p q); [congruence | reflexivity].
  - destruct (String.eqb_spec k p); simpl.
    + subst k. destruct (String.eqb_spec p q); [congruence | reflexivity].
    + now rewrite IH.
Qed.

Lemma fs_set_same (p : string) (n : Fs.Node) (fs : Fs.t) :
  Fs.lookup p fs = Some n -> Fs.set p n fs = fs.
Proof.
  induction fs as [|[q old] rest IH]; simpl; [discriminate|].
  destruct (String.eqb q p).
  - intros H. now inversion H.
  - intros H. now rewrite IH.
Qed.

Lemma mkdirs_stuck (ds : list string) : fold_left Fs.mkdir ds None = None.
Proof.
  induction ds; simpl; auto.
Qed.

Lemma mkdirs_done (ds : list string) (fs : Fs.t) :
  (forall d c, In d ds -> Fs.lookup d fs <> Some (Fs.File c)) ->
  exists fs',
    fold_left Fs.mkdir ds (Some fs) = Some fs' /\
    forall q, Fs.lookup q fs' =
              if existsb (String.eqb q) ds then Some Fs.Dir else Fs.lookup q fs.
Proof.
  revert fs. induction ds as [|d ds IH]; intros fs Hno.
  - exists fs. split; reflexivity.
  - cbn [fold_left Fs.mkdir existsb].
    destruct (Fs.lookup d fs) as [[c|]|] eqn:E.
    + exfalso. exact (Hno d c (or_introl eq_refl) E).
    + destruct (IH fs) as [fs' [Hrun Hlook]].
      { intros x c Hx. apply Hno. now right. }
      exists fs'. split; [exact Hrun|]. intros q. rewrite Hlook.
      destruct (String.eqb_spec q d); [subst q|]; simpl;
        [rewrite E; now destruct (existsb (String.eqb d) ds) | reflexivity].
    + destruct (IH (Fs.set d Fs.Dir fs)) as [fs' [Hrun Hlook]].
      { intros x c Hx. destruct (String.eqb_spec x d).
        - subst x. rewrite fs_lookup_set_same. discriminate.
        - rewrite fs_lookup_set_other by assumption. apply Hno. now right. }
      exists fs'. split; [exact Hrun|]. intros q. rewrite Hlook.
      destruct (String.eqb_spec q d); [subst q|]; simpl.
      * rewrite fs_lookup_set_same. now destruct (existsb (String.eqb d) ds).
      * now rewrite fs_lookup_set_other by assumption.
Qed.

Lemma mkdirs_noop (ds : list string) (fs : Fs.t) :
  (forall d, In d ds -> Fs.lookup d fs = Some Fs.Dir) ->
  fold_left Fs.mkdir ds (Some fs) = Some fs.
Proof.
  induction ds as [|d ds IH]; intros H; [reflexivity|].
  cbn [fold_left Fs.mkdir]. rewrite (H d (or_introl eq_refl)).
  apply IH. intros x Hx. apply H. now right.
Qed.

Lemma mkdirs_keep_files (ds : list string) (fs fs' : Fs.t) (p : string)
    (c : Fs.Content) :
  fold_left Fs.mkdir ds (Some fs) = Some fs' ->
  Fs.lookup p fs = Some (Fs.File c) ->
  Fs.lookup p fs' = Some (Fs.File c).
Proof.
  revert fs. induction ds as [|d ds IH]; intros fs Hrun Hp.
  - inversion Hrun; now subst.
  - cbn [fold_left Fs.mkdir] in Hrun.
    destruct (Fs.lookup d fs) as [[c'|]|] eqn:E.
    + rewrite mkdirs_stuck in Hrun. discriminate.
    + exact (IH fs Hrun Hp).
    + apply (IH _ Hrun). rewrite fs_lookup_set_other; [exact Hp|].
      intros ->. congruence.
Qed.

Lemma last_write_none (p : string) (ops : list FsOp) :
  ~ In p (file_paths ops) -> last_write p ops = None.
Proof.
  unfold file_paths. induction ops as [|op rest IH]; intros H; [reflexivity|].
  cbn [last_write]. cbn [flat_map] in H. rewrite map_app, in_app_iff in H.
  rewrite IH by tauto.
  destruct op as [d|q c]; [reflexivity|].
  destruct (String.eqb_spec q p); [|reflexivity].
  subst q. exfalso. apply H. left. now left.
Qed.

Lemma last_write_unique (p c : string) (ops : list FsOp) :
  NoDup (file_paths ops) -> In (WriteFile p c) ops ->
  last_write p ops = Some c.
Proof.
  unfold file_paths. induction ops as [|op rest IH]; intros Hnd Hin;
    [contradiction|].
  cbn [flat_map] in Hnd. rewrite map_app in Hnd.
  destruct Hin as [Hop|Hin].
  - subst op. cbn [written map app] in Hnd. inversion Hnd; subst.
    cbn [last_write]. rewrite last_write_none by assumption.
    now rewrite String.eqb_refl.
  - assert (Hrest : NoDup (map fst (flat_map written rest))).
    { destruct op; cbn [written map app] in Hnd;
        [exact Hnd | now inversion Hnd]. }
    cbn [last_write]. now rewrite (IH Hrest Hin).
Qed.

Lemma find_app_first {A : Type} (f : A -> bool) (l1 l2 : list A) :
  find f (l1 ++ l2)%list =
  match find f l1 with
  | Some x => Some x
  | None => find f l2
  end.
Proof.
  induction l1 as [|a l1 IH]; simpl; [reflexivity|].
  now destruct (f a).
Qed.

Lemma content_at_last_write (p : string) (r : Response) :
  content_at p r = last_write p (steps r).
Proof.
  unfold content_at, plan.
  induction (steps r) as [|op rest IH]; [reflexivity|].
  cbn [flat_map last_write]. rewrite rev_app_distr, find_app_first.
  rewrite <- IH.
  destruct (find (fun f => String.eqb (fst f) p)
                 (rev (flat_map written rest))); [reflexivity|].
  destruct op as [d|q c]; [reflexivity|].
  cbn [written rev app find fst]. now destruct (String.eqb q p).
Qed.

(** The invariant of a run of plain operations: [D] are the directories and
    [F] the files of the whole sequence, [known] the directories that exist
    already. *)
Lemma run_done (D F : list string) :
  (forall x, In x D -> ~ In x F) ->
  forall (ops : list FsOp) (known : list string) (fs : Fs.t),
    incl (file_paths ops) F ->
    incl (dir_paths ops) D ->
    incl known D ->
    dirs_ready known ops = true ->
    (forall d c, In d D -> Fs.lookup d fs <> Some (Fs.File c)) ->
    (forall p, In p F -> Fs.lookup p fs <> Some Fs.Dir) ->
    (forall d, In d known -> Fs.lookup d fs = Some Fs.Dir) ->
    exists fs',
      Fs.run (map Fs.Plain ops) fs = Fs.Done fs' /\
      forall q, Fs.lookup q fs' =
                match last_write q ops with
                | Some c => Some (Fs.File (Fs.Text c))
                | None => if existsb (String.eqb q) (dir_paths ops)
                          then Some Fs.Dir else Fs.lookup q fs
                end.
Proof.
  intros Hdisj ops.
  induction ops as [|op rest IH];
    intros known fs HF HD HK Hready HnoFile HnoDir Hknown.
  - exists fs. split; reflexivity.
  - destruct op as [d|p c].
    + cbn [dirs_ready] in Hready.
      unfold dir_paths in HD. cbn [flat_map] in HD.
      apply incl_app_inv in HD. destruct HD as [Hchain HD].
      destruct (mkdirs_done (Fs.chain d) fs) as [fs1 [Hrun1 Hlook1]].
      { intros x c Hx. apply HnoFile, Hchain, Hx. }
      destruct (IH (Fs.chain d ++ known)%list fs1) as [fs' [Hrun Hlook]];
        trivial.
      * now apply incl_app.
      * intros x c Hx. rewrite Hlook1.
        destruct (existsb (String.eqb x) (Fs.chain d));
          [discriminate | now apply HnoFile].
      * intros x Hx. rewrite Hlook1.
        destruct (existsb (String.eqb x) (Fs.chain d)) eqn:E;
          [|now apply HnoDir].
        exfalso. apply mem_In in E. exact (Hdisj x (Hchain x E) Hx).
      * intros x Hx. rewrite Hlook1.
        destruct (existsb (String.eqb x) (Fs.chain d)) eqn:E; [reflexivity|].
        apply in_app_or in Hx. destruct Hx as [Hx|Hx]; [|now apply Hknown].
        apply mem_In in Hx. congruence.
      * exists fs'. split.
        { cbn [map Fs.run Fs.step]. unfold Fs.ensureDirSync.
          now rewrite Hrun1. }
        intros q. rewrite Hlook. cbn [last_write].
        destruct (last_write q rest); [reflexivity|].
        unfold dir_paths. cbn [flat_map]. rewrite existsb_app, Hlook1.
        fold (dir_paths rest).
        now destruct (existsb (String.eqb q) (Fs.chain d)),
                     (existsb (String.eqb q) (dir_paths rest)).
    + cbn [dirs_ready] in Hready. apply andb_true_iff in Hready.
      destruct Hready as [Hdir Hready].
      assert (Hp : In p F) by (apply HF; now left).
      assert (HF' : incl (file_paths rest) F)
        by (intros x Hx; apply HF; now right).
      assert (Hisdir : Fs.is_dir fs (Fs.dirname p) = true).
      { unfold Fs.is_dir.
        destruct (String.eqb (Fs.dirname p) "."); [reflexivity|].
        cbn [orb] in Hdir. apply mem_In in Hdir. now rewrite (Hknown _ Hdir). }
      assert (Hstep : Fs.step (Fs.Plain (WriteFile p c)) fs
                      = Some (Fs.set p (Fs.File (Fs.Text c)) fs)).
      { cbn [Fs.step]. unfold Fs.writeFileSync. rewrite Hisdir.
        destruct (Fs.lookup p fs) as [[c'|]|] eqn:E; try reflexivity.
        exfalso. exact (HnoDir p Hp E). }
      assert (Hother : forall x, In x D -> x <> p).
      { intros x Hx ->. exact (Hdisj p Hx Hp). }
      destruct (IH known (Fs.set p (Fs.File (Fs.Text c)) fs))
        as [fs' [Hrun Hlook]]; trivial.
      * intros x c' Hx. rewrite fs_lookup_set_other by now apply Hother.
        now apply HnoFile.
      * intros x Hx. destruct (String.eqb_spec x p).
        { subst x. rewrite fs_lookup_set_same. discriminate. }
        rewrite fs_lookup_set_other by assumption. now apply HnoDir.
      * intros x Hx. rewrite fs_lookup_set_other by now apply Hother, HK.
        now apply Hknown.
      * exists fs'. split; [cbn [map Fs.run]; now rewrite Hstep|].
        intros q. rewrite Hlook. cbn [last_write].
        destruct (last_write q rest); [reflexivity|].
        change (dir_paths (WriteFile p c :: rest)) with (dir_paths rest).
        destruct (String.eqb_spec p q).
        { subst q. rewrite fs_lookup_set_same.
          destruct (existsb (String.eqb p) (dir_paths rest)) eqn:E;
            [|reflexivity].
          exfalso. apply mem_In in E. exact (Hdisj p (HD p E) Hp). }
        rewrite fs_lookup_set_other by congruence. reflexivity.
Qed.

Lemma steps_static (r : Response) :
  dirs_ready [] (steps r) = true /\
  forallb (fun d => negb (existsb (String.eqb d) (paths r))) (ensured r) = true /\
  NoDup (paths r).
Proof.
  split; [|split].
  - unfold steps.
    destruct (needsAuth r), (truthy (needsBottomTabs r)); reflexivity.
  - unfold ensured, paths, plan, steps.
    destruct (needsAuth r), (truthy (needsBottomTabs r)); reflexivity.
  - rewrite paths_shape.
    destruct (needsAuth r), (truthy (needsBottomTabs r));
      repeat (constructor; [apply no_such_path; reflexivity|]); constructor.
Qed.

Lemma ensured_not_written (r : Response) (x : string) :
  In x (ensured r) -> ~ In x (paths r).
Proof.
  destruct (steps_static r) as [_ [H _]].
  rewrite forallb_forall in H. intros Hx Hp.
  apply H in Hx. apply mem_In in Hp. rewrite Hp in Hx. discriminate.
Qed.

Lemma run_app (a b : list Fs.Op) (fs : Fs.t) :
  Fs.run (a ++ b)%list fs =
  match Fs.run a fs with
  | Fs.Done fs1 => Fs.run b fs1
  | Fs.Failed fs1 op => Fs.Failed fs1 op
  end.
Proof.
  revert fs. induction a as [|op a IH]; intros fs; [reflexivity|].
  cbn [app Fs.run]. destruct (Fs.step op fs); [apply IH | reflexivity].
Qed.

Lemma whole_run_shape (r : Response) :
  whole_run r =
  (Fs.Plain (WriteFile "tailwind.config.js" (tailwindConfig r))
   :: Fs.EditJson "app.json" (fun j => set_scheme j (appName r))
   :: map Fs.Plain (skipn 1 (steps r))
   ++ [Fs.EditJson "package.json" set_main])%list.
Proof.
  reflexivity.
Qed.

Lemma steps_shape (r : Response) :
  steps r =
  WriteFile "tailwind.config.js" (tailwindConfig r) :: skipn 1 (steps r).
Proof.
  reflexivity.
Qed.

(** The two manifests and the first file written are apart from everything
    else the run touches. *)
Lemma manifests_apart (r : Response) :
  In "tailwind.config.js" (paths r) /\
  ~ In "tailwind.config.js" (file_paths (skipn 1 (steps r))) /\
  (forall m, m = "app.json" \/ m = "package.json" ->
             ~ In m (paths r) /\ ~ In m (ensured r)).
Proof.
  split; [|split].
  - rewrite paths_shape. now left.
  - apply no_such_path. unfold file_paths, steps.
    destruct (needsAuth r), (truthy (needsBottomTabs r)); reflexivity.
  - intros m [->| ->]; split; apply no_such_path;
      unfold ensured, paths, plan, steps;
      destruct (needsAuth r), (truthy (needsBottomTabs r)); reflexivity.
Qed.

Lemma write_at_root (p : string) (c : Fs.Content) (fs : Fs.t) :
  Fs.dirname p = "." ->
  Fs.lookup p fs <> Some Fs.Dir ->
  Fs.writeFileSync p c fs = Some (Fs.set p (Fs.File c) fs).
Proof.
  intros Hd Hp. unfold Fs.writeFileSync, Fs.is_dir.
  rewrite Hd, String.eqb_refl.
  destruct (Fs.lookup p fs) as [[c'|]|]; try reflexivity. now elim Hp.
Qed.

Lemma edit_done (p : string) (edit : Json.t -> option Json.t)
    (j j' : Json.t) (fs : Fs.t) :
  Fs.dirname p = "." ->
  Fs.lookup p fs = Some (Fs.File (Fs.Document j)) ->
  edit j = Some j' ->
  Fs.editJson p edit fs = Some (Fs.set p (Fs.File (Fs.Document j')) fs).
Proof.
  intros Hd Hp He. unfold Fs.editJson. rewrite Hp, He.
  apply write_at_root; [exact Hd|]. rewrite Hp. discriminate.
Qed.

Lemma whole_run_done (r : Response) (fs : Fs.t) :
  runnable r fs ->
  exists fs',
    Fs.run (whole_run r) fs = Fs.Done fs' /\
    (forall p c, content_at p r = Some c ->
                 Fs.lookup p fs' = Some (Fs.File (Fs.Text c))) /\
    (forall d, In d (ensured r) -> Fs.lookup d fs' = Some Fs.Dir) /\
    (exists j j',
       Fs.lookup "app.json" fs = Some (Fs.File (Fs.Document j)) /\
       set_scheme j (appName r) = Some j' /\
       Fs.lookup "app.json" fs' = Some (Fs.File (Fs.Document j'))) /\
    (exists j j',
       Fs.lookup "package.json" fs = Some (Fs.File (Fs.Document j)) /\
       set_main j = Some j' /\
       Fs.lookup "package.json" fs' = Some (Fs.File (Fs.Document j'))) /\
    (forall q, ~ In q (paths r) -> ~ In q (ensured r) ->
               q <> "app.json" -> q <> "package.json" ->
               Fs.lookup q fs' = Fs.lookup q fs).
Proof.
  intros [[HnoDir HnoFile] [[j [Hj Hset]] [pj [Hpj Hmain]]]].
  destruct (set_scheme j (appName r)) as [j'|] eqn:Ej; [|congruence].
  destruct (set_main pj) as [pj'|] eqn:Epj; [|congruence].
  clear Hset Hmain.
  destruct (manifests_apart r) as [Htw [Htw' Hman]].
  destruct (Hman "app.json" (or_introl eq_refl)) as [HappF HappD].
  destruct (Hman "package.json" (or_intror eq_refl)) as [HpkgF HpkgD].
  destruct (steps_static r) as [Hready _].
  set (tw := Fs.File (Fs.Text (tailwindConfig r))).
  set (fs1 := Fs.set "tailwind.config.js" tw fs).
  set (fs2 := Fs.set "app.json" (Fs.File (Fs.Document j')) fs1).
  assert (Hstep1 : Fs.step (Fs.Plain (WriteFile "tailwind.config.js"
                                        (tailwindConfig r))) fs = Some fs1).
  { cbn [Fs.step]. apply write_at_root; [reflexivity | now apply HnoDir]. }
  assert (Hstep2 : Fs.step (Fs.EditJson "app.json"
                              (fun j => set_scheme j (appName r))) fs1
                   = Some fs2).
  { cbn [Fs.step]. apply (edit_done _ _ j j'); [reflexivity | | exact Ej].
    unfold fs1. rewrite fs_lookup_set_other by discriminate. exact Hj. }
  assert (Hfs2 : forall q, q <> "app.json" -> q <> "tailwind.config.js" ->
                           Fs.lookup q fs2 = Fs.lookup q fs).
  { intros q H1 H2. unfold fs2, fs1.
    now rewrite !fs_lookup_set_other by assumption. }
  destruct (run_done (ensured r) (paths r) (ensured_not_written r)
              (skipn 1 (steps r)) [] fs2) as [fs3 [Hrun3 Hlook3]].
  - intros x Hx. rewrite paths_shape.
    change (file_paths (skipn 1 (steps r))) with (tl (paths r)) in Hx.
    rewrite paths_shape in Hx. now right.
  - apply incl_refl.
  - intros x [].
  - rewrite steps_shape in Hready. cbn [dirs_ready] in Hready.
    now apply andb_true_iff in Hready.
  - intros d c Hd. rewrite Hfs2.
    + now apply HnoFile.
    + intros ->. contradiction.
    + intros ->. exact (ensured_not_written r _ Hd Htw).
  - intros p Hp. destruct (String.eqb_spec p "app.json"); [subst p; contradiction|].
    destruct (String.eqb_spec p "tailwind.config.js").
    + subst p. unfold fs2, fs1.
      rewrite fs_lookup_set_other by discriminate.
      rewrite fs_lookup_set_same. discriminate.
    + rewrite Hfs2 by assumption. now apply HnoDir.
  - intros d [].
  - assert (Hpkg3 : Fs.lookup "package.json" fs3
                    = Some (Fs.File (Fs.Document pj))).
    { rewrite Hlook3. rewrite last_write_none.
      - destruct (existsb (String.eqb "package.json")
                          (dir_paths (skipn 1 (steps r)))) eqn:E.
        + apply mem_In in E. contradiction.
        + rewrite Hfs2 by discriminate. exact Hpj.
      - intros H. apply HpkgF. rewrite paths_shape.
        change (file_paths (skipn 1 (steps r))) with (tl (paths r)) in H.
        rewrite paths_shape in H. now right. }
    set (fs4 := Fs.set "package.json" (Fs.File (Fs.Document pj')) fs3).
    assert (Hstep4 : Fs.step (Fs.EditJson "package.json" set_main) fs3
                     = Some fs4).
    { cbn [Fs.step]. now apply (edit_done _ _ pj pj'). }
    assert (Hfs4 : forall q, q <> "package.json" ->
              Fs.lookup q fs4 =
              match last_write q (skipn 1 (steps r)) with
              | Some c => Some (Fs.File (Fs.Text c))
              | None => if existsb (String.eqb q) (ensured r)
                        then Some Fs.Dir else Fs.lookup q fs2
              end).
    { intros q Hq. unfold fs4. rewrite fs_lookup_set_other by assumption.
      apply Hlook3. }
    exists fs4. split; [|split; [|split; [|split; [|split]]]].
    + rewrite whole_run_shape. cbn [Fs.run]. rewrite Hstep1, Hstep2.
      rewrite run_app, Hrun3. cbn [Fs.run]. now rewrite Hstep4.
    + intros p c Hc.
      rewrite content_at_last_write, steps_shape in Hc. cbn [last_write] in Hc.
      assert (Hp : p <> "package.json").
      { intros ->. rewrite last_write_none in Hc.
        - discriminate Hc.
        - intros H. apply HpkgF. rewrite paths_shape.
          change (file_paths (skipn 1 (steps r))) with (tl (paths r)) in H.
          rewrite paths_shape in H. now right. }
      rewrite (Hfs4 p Hp).
      destruct (last_write p (skipn 1 (steps r))) as [c'|]; [congruence|].
      destruct (String.eqb_spec "tailwind.config.js" p); [|discriminate].
      subst p. inversion Hc; subst c.
      destruct (existsb (String.eqb "tailwind.config.js") (ensured r)) eqn:E.
      * apply mem_In in E. now elim (ensured_not_written r _ E).
      * unfold fs2, fs1. rewrite fs_lookup_set_other by discriminate.
        apply fs_lookup_set_same.
    + intros d Hd.
      assert (Hdp : d <> "package.json") by (intros ->; contradiction).
      rewrite (Hfs4 d Hdp), last_write_none.
      * apply mem_In in Hd. now rewrite Hd.
      * intros H. apply (ensured_not_written r d Hd). rewrite paths_shape.
        change (file_paths (skipn 1 (steps r))) with (tl (paths r)) in H.
        rewrite paths_shape in H. now right.
    + exists j, j'. split; [exact Hj|]. split; [exact Ej|].
      rewrite Hfs4 by discriminate. rewrite last_write_none.
      * destruct (existsb (String.eqb "app.json") (ensured r)) eqn:E.
        -- apply mem_In in E. contradiction.
        -- apply fs_lookup_set_same.
      * intros H. apply HappF. rewrite paths_shape.
        change (file_paths (skipn 1 (steps r))) with (tl (paths r)) in H.
        rewrite paths_shape in H. now right.
    + exists pj, pj'. split; [exact Hpj|]. split; [exact Epj|].
      apply fs_lookup_set_same.
    + intros q HqF HqD Hq1 Hq2. rewrite (Hfs4 q Hq2), last_write_none.
      * destruct (existsb (String.eqb q) (ensured r)) eqn:E.
        -- apply mem_In in E. contradiction.
        -- apply Hfs2; [exact Hq1|]. intros ->. contradiction.
      * intros H. apply HqF. rewrite paths_shape.
        change (file_paths (skipn 1 (steps r))) with (tl (paths r)) in H.
        rewrite paths_shape in H. now right.
Qed.

Lemma no_clash_scaffold (r : Response) : no_clash r scaffold.
Proof.
  split.
  - apply Forall_forall. rewrite paths_shape.
    destruct (needsAuth r), (truthy (needsBottomTabs r));
      repeat (constructor; [discriminate|]); constructor.
  - intros d c Hd. revert c.
    apply (proj1 (Forall_forall
                    (fun d => forall c, Fs.lookup d scaffold <> Some (Fs.File c))
                    (ensured r))); [|exact Hd].
    unfold ensured, steps.
    destruct (needsAuth r), (truthy (needsBottomTabs r));
      repeat (constructor; [intros c; discriminate|]); constructor.
Qed.

Lemma runnable_scaffold (r : Response) : runnable r scaffold.
Proof.
  split; [apply no_clash_scaffold|]. split.
  - exists sample_app_json. split; [reflexivity | discriminate].
  - exists sample_package_json. split; [reflexivity | discriminate].
Qed.

(** X9.  On a tree where nothing stands in the way and the two manifests are
    documents the assignments accept, every file operation of the run
    succeeds.  Afterwards every planned path is a file with the planned
    content, whatever was there before; every directory of the plan exists;
    [app.json] and [package.json] hold what the two edits make of them; and
    every other entry is as it was. *)
Theorem whole_run_writes_the_plan (r : Response) (fs : Fs.t) :
  runnable r fs ->
  exists fs',
    Fs.run (whole_run r) fs = Fs.Done fs' /\
    (forall p c, content_at p r = Some c ->
                 Fs.lookup p fs' = Some (Fs.File (Fs.Text c))) /\
    (forall d, In d (ensured r) -> Fs.lookup d fs' = Some Fs.Dir) /\
    (exists j j',
       Fs.lookup "app.json" fs = Some (Fs.File (Fs.Document j)) /\
       set_scheme j (appName r) = Some j' /\
       Fs.lookup "app.json" fs' = Some (Fs.File (Fs.Document j'))) /\
    (exists j j',
       Fs.lookup "package.json" fs = Some (Fs.File (Fs.Document j)) /\
       set_main j = Some j' /\
       Fs.lookup "package.json" fs' = Some (Fs.File (Fs.Document j'))) /\
    (forall q, ~ In q (paths r) -> ~ In q (ensured r) ->
               q <> "app.json" -> q <> "package.json" ->
               Fs.lookup q fs' = Fs.lookup q fs).
Proof.
  exact (whole_run_done r fs).
Qed.

Lemma whole_run_writes_the_plan_witness :
  runnable (demo Inter false None) scaffold /\
  exists fs',
    Fs.run (whole_run (demo Inter false None)) scaffold = Fs.Done fs' /\
    Fs.lookup "app/index.tsx" fs'
    = Some (Fs.File (Fs.Text (simpleHomeScreen (demo Inter false None)))) /\
    Fs.lookup "assets" fs' = Some Fs.Dir.
Proof.
  split; [apply runnable_scaffold|].
  destruct (whole_run_writes_the_plan (demo Inter false None) scaffold
              (runnable_scaffold _)) as [fs' [Hrun [Hfiles [_ [_ [_ Hrest]]]]]].
  exists fs'. split; [exact Hrun|]. split.
  - apply Hfiles. reflexivity.
  - rewrite Hrest; [reflexivity | | | |];
      first [discriminate | apply no_such_path; reflexivity].
Defined.

Lemma run_noop (ops : list Fs.Op) (fs : Fs.t) :
  (forall op, In op ops -> Fs.step op fs = Some fs) ->
  Fs.run ops fs = Fs.Done fs.
Proof.
  induction ops as [|op rest IH]; intros H; [reflexivity|].
  cbn [Fs.run]. rewrite (H op (or_introl eq_refl)).
  apply IH. intros x Hx. apply H. now right.
Qed.

Lemma ensured_chain (d : string) (ops : list FsOp) :
  In (EnsureDir d) ops -> incl (Fs.chain d) (dir_paths ops).
Proof.
  unfold dir_paths. induction ops as [|op rest IH]; intros H; [contradiction|].
  cbn [flat_map]. destruct H as [H|H].
  - subst op. now apply incl_appl, incl_refl.
  - now apply incl_appr, IH.
Qed.

Lemma dirs_ready_prefix (pre : list FsOp) (known : list string)
    (p c : string) (post : list FsOp) :
  dirs_ready known (pre ++ WriteFile p c :: post)%list = true ->
  Fs.dirname p = "." \/ In (Fs.dirname p) known \/
  In (Fs.dirname p) (dir_paths pre).
Proof.
  revert known. induction pre as [|op pre IH]; intros known H.
  - cbn [app dirs_ready] in H. apply andb_true_iff in H. destruct H as [H _].
    apply orb_true_iff in H. destruct H as [H|H].
    + left. now apply String.eqb_eq.
    + right. left. now apply mem_In.
  - destruct op as [d|q c']; cbn [app dirs_ready] in H.
    + destruct (IH _ H) as [E|[E|E]]; [now left | |].
      * apply in_app_or in E. destruct E as [E|E]; [|now right; left].
        right. right. unfold dir_paths. cbn [flat_map].
        apply in_or_app. now left.
      * right. right. unfold dir_paths. cbn [flat_map].
        apply in_or_app. now right.
    + apply andb_true_iff in H. destruct H as [_ H].
      exact (IH _ H).
Qed.

Lemma write_after_ensure (r : Response)
    (before : list FsOp) (p c : string) (after : list FsOp) :
  steps r = (before ++ WriteFile p c :: after)%list ->
  Fs.dirname p = "." \/ In (Fs.dirname p) (dir_paths before).
Proof.
  intros H. destruct (steps_static r) as [Hready _]. rewrite H in Hready.
  destruct (dirs_ready_prefix _ _ _ _ _ Hready) as [E|[[]|E]]; auto.
Qed.

(** X10.  Every file is written into the root or into a directory that an
    earlier operation of the run has ensured. *)
Theorem directory_ensured_before_write (r : Response)
    (before : list FsOp) (p c : string) (after : list FsOp) :
  steps r = (before ++ WriteFile p c :: after)%list ->
  Fs.dirname p = "." \/ In (Fs.dirname p) (dir_paths before).
Proof.
  exact (write_after_ensure r before p c after).
Qed.

Lemma directory_ensured_before_write_witness :
  steps (demo Inter true (Some true)) =
    (firstn 17 (steps (demo Inter true (Some true)))
     ++ WriteFile "app/(tabs)/_layout.tsx" tabsLayout
     :: skipn 18 (steps (demo Inter true (Some true))))%list /\
  In "app/(tabs)"
     (dir_paths (firstn 17 (steps (demo Inter true (Some true))))).
Proof.
  split; [reflexivity|].
  destruct (directory_ensured_before_write (demo Inter true (Some true))
              (firstn 17 (steps (demo Inter true (Some true))))
              "app/(tabs)/_layout.tsx" tabsLayout
              (skipn 18 (steps (demo Inter true (Some true)))) eq_refl)
    as [E|E]; [discriminate E | exact E].
Defined.

Lemma set_scheme_again (j j' : Json.t) (name : string) :
  set_scheme j name = Some j' -> set_scheme j' name = Some j'.
Proof.
  unfold set_scheme. destruct j as [| | | | |members]; try discriminate.
  destruct (lookup "expo" members) as [[| | | |items|expo]|] eqn:E;
    try discriminate; intros H; inversion H; subst j'; clear H.
  - now rewrite E.
  - now rewrite lookup_assign_same, !assign_assign.
Qed.

Lemma set_main_again (j j' : Json.t) :
  set_main j = Some j' -> set_main j' = Some j'.
Proof.
  unfold set_main. destruct j as [| | | |items|members]; try discriminate;
    intros H; inversion H; subst j'; clear H; [reflexivity|].
  now rewrite assign_assign.
Qed.

(** X11.  Running the file operations of the run a second time succeeds and
    leaves the tree exactly as the first run left it: the directories are
    there, every file is written again with the same content, and the two
    manifests are edited to what they already hold. *)
Theorem whole_run_again (r : Response) (fs fs' : Fs.t) :
  runnable r fs ->
  Fs.run (whole_run r) fs = Fs.Done fs' ->
  Fs.run (whole_run r) fs' = Fs.Done fs'.
Proof.
  intros Hok Hrun.
  destruct (whole_run_done r fs Hok)
    as [fs1 [Hrun1 [Hfiles [Hdirs [[j [j' [_ [Ej Hj']]]]
                                    [[pj [pj' [_ [Epj Hpj']]]] _]]]]]].
  rewrite Hrun in Hrun1. inversion Hrun1; subst fs1. clear Hrun1.
  destruct (steps_static r) as [_ [_ Hnodup]].
  assert (Hplain : forall op, In op (steps r) ->
                              Fs.step (Fs.Plain op) fs' = Some fs').
  { intros [d|p c] Hop; cbn [Fs.step].
    - unfold Fs.ensureDirSync. apply mkdirs_noop.
      intros x Hx. apply Hdirs. exact (ensured_chain d _ Hop x Hx).
    - assert (Hc : Fs.lookup p fs' = Some (Fs.File (Fs.Text c))).
      { apply Hfiles. rewrite content_at_last_write.
        now apply last_write_unique. }
      apply in_split in Hop. destruct Hop as [pre [post Hsplit]].
      assert (Hd : Fs.is_dir fs' (Fs.dirname p) = true).
      { unfold Fs.is_dir.
        destruct (write_after_ensure r pre p c post Hsplit)
          as [E|E]; [now rewrite E|].
        destruct (String.eqb (Fs.dirname p) "."); [reflexivity|].
        rewrite Hdirs; [reflexivity|]. unfold ensured. rewrite Hsplit.
        unfold dir_paths. rewrite flat_map_app. apply in_or_app. now left. }
      unfold Fs.writeFileSync. rewrite Hd, Hc. now rewrite fs_set_same. }
  apply run_noop. intros op Hop. rewrite whole_run_shape in Hop.
  destruct Hop as [Hop|[Hop|Hop]].
  - subst op. apply Hplain. rewrite steps_shape. now left.
  - subst op. cbn [Fs.step].
    rewrite (edit_done "app.json" _ j' j' fs' eq_refl Hj'
               (set_scheme_again _ _ _ Ej)).
    now rewrite fs_set_same.
  - apply in_app_or in Hop. destruct Hop as [Hop|[Hop|[]]].
    + apply in_map_iff in Hop. destruct Hop as [o [<- Ho]].
      apply Hplain. rewrite steps_shape. now right.
    + subst op. cbn [Fs.step].
      rewrite (edit_done "package.json" _ pj' pj' fs' eq_refl Hpj'
                 (set_main_again _ _ Epj)).
      now rewrite fs_set_same.
Qed.

Lemma whole_run_again_witness :
  runnable (demo Inter true (Some false)) scaffold /\
  exists fs',
    Fs.run (whole_run (demo Inter true (Some false))) scaffold = Fs.Done fs' /\
    Fs.run (whole_run (demo Inter true (Some false))) fs' = Fs.Done fs'.
Proof.
  split; [apply runnable_scaffold|].
  destruct (whole_run_done (demo Inter true (Some false)) scaffold
              (runnable_scaffold _)) as [fs' [Hrun _]].
  exists fs'. split; [exact Hrun|].
  exact (whole_run_again _ _ _ (runnable_scaffold _) Hrun).
Defined.

Lemma run_failed_split (ops : list Fs.Op) (fs fs' : Fs.t) (op : Fs.Op) :
  Fs.run ops fs = Fs.Failed fs' op ->
  exists before after,
    ops = (before ++ op :: after)%list /\
    Fs.run before fs = Fs.Done fs' /\
    Fs.step op fs' = None.
Proof.
  revert fs. induction ops as [|o rest IH]; intros fs H; [discriminate|].
  cbn [Fs.run] in H. destruct (Fs.step o fs) as [fs1|] eqn:E.
  - destruct (IH fs1 H) as [before [after [Hops [Hrun Hstep]]]].
    exists (o :: before), after. split; [now rewrite Hops|].
    split; [cbn [Fs.run]; now rewrite E | exact Hstep].
  - inversion H; subst. exists [], rest. repeat split. exact E.
Qed.

Lemma write_result (p : string) (c : Fs.Content) (fs fs1 : Fs.t) :
  Fs.writeFileSync p c fs = Some fs1 -> fs1 = Fs.set p (Fs.File c) fs.
Proof.
  unfold Fs.writeFileSync. destruct (Fs.is_dir fs (Fs.dirname p)); [|discriminate].
  destruct (Fs.lookup p fs) as [[?|]|]; intros H; now inversion H.
Qed.

Lemma step_keeps_content (op : Fs.Op) (fs fs1 : Fs.t) (p : string)
    (c : Fs.Content) :
  Fs.step op fs = Some fs1 ->
  ~ In p (target op) ->
  Fs.lookup p fs = Some (Fs.File c) ->
  Fs.lookup p fs1 = Some (Fs.File c).
Proof.
  intros Hstep Hp Hc. destruct op as [[d|q c']|q edit]; cbn [Fs.step] in Hstep.
  - unfold Fs.ensureDirSync in Hstep.
    exact (mkdirs_keep_files (Fs.chain d) fs fs1 p c Hstep Hc).
  - apply write_result in Hstep. subst fs1.
    rewrite fs_lookup_set_other; [exact Hc|].
    intros ->. apply Hp. now left.
  - unfold Fs.editJson in Hstep.
    destruct (Fs.lookup q fs) as [[[?|j]|]|]; try discriminate.
    destruct (edit j) as [j'|]; [|discriminate].
    apply write_result in Hstep. subst fs1.
    rewrite fs_lookup_set_other; [exact Hc|].
    intros ->. apply Hp. now left.
Qed.

Lemma run_keeps_content (ops : list Fs.Op) (fs fs' : Fs.t) (p : string)
    (c : Fs.Content) :
  Fs.run ops fs = Fs.Done fs' ->
  ~ In p (targets ops) ->
  Fs.lookup p fs = Some (Fs.File c) ->
  Fs.lookup p fs' = Some (Fs.File c).
Proof.
  revert fs. induction ops as [|o rest IH]; intros fs Hrun Hp Hc.
  - inversion Hrun; now subst.
  - cbn [Fs.run] in Hrun. destruct (Fs.step o fs) as [fs1|] eqn:E;
      [|discriminate].
    unfold targets in Hp. cbn [flat_map] in Hp. rewrite in_app_iff in Hp.
    apply (IH fs1 Hrun); [tauto|].
    apply (step_keeps_content o fs fs1 p c E); [tauto | exact Hc].
Qed.

Lemma run_keeps_writes (ops : list Fs.Op) (fs fs' : Fs.t) (p c : string) :
  NoDup (targets ops) ->
  Fs.run ops fs = Fs.Done fs' ->
  In (Fs.Plain (WriteFile p c)) ops ->
  Fs.lookup p fs' = Some (Fs.File (Fs.Text c)).
Proof.
  revert fs. induction ops as [|o rest IH]; intros fs Hnd Hrun Hin;
    [contradiction|].
  cbn [Fs.run] in Hrun. destruct (Fs.step o fs) as [fs1|] eqn:E;
    [|discriminate].
  unfold targets in Hnd. cbn [flat_map] in Hnd.
  destruct Hin as [Ho|Hin].
  - subst o. cbn [target app] in Hnd. inversion Hnd; subst.
    apply (run_keeps_content rest fs1 fs' p _ Hrun); [assumption|].
    cbn [Fs.step] in E. apply write_result in E. subst fs1.
    apply fs_lookup_set_same.
  - apply (IH fs1); trivial.
    apply NoDup_app_remove_l in Hnd. exact Hnd.
Qed.

Lemma whole_run_targets (r : Response) : NoDup (targets (whole_run r)).
Proof.
  unfold targets, whole_run, steps.
  destruct (needsAuth r), (truthy (needsBottomTabs r));
    repeat (constructor; [apply no_such_path; reflexivity|]); constructor.
Qed.

(** X12.  An operation that throws stops the run: when the operations before
    it went through and it cannot be carried out on the tree they left, the
    run ends there with that tree, and no failure comes about in another
    way.  Nothing is taken back: every file written before the failure is
    in the tree with its content.  In particular, when [app.json] is not a
    document with an [expo] object to set the scheme on, the run ends at
    that edit with [tailwind.config.js] written and nothing else done. *)
Theorem failure_stops_the_run (r : Response) (fs : Fs.t) :
  (forall before op after fs',
     whole_run r = (before ++ op :: after)%list ->
     Fs.run before fs = Fs.Done fs' ->
     Fs.step op fs' = None ->
     Fs.run (whole_run r) fs = Fs.Failed fs' op) /\
  (forall fs' op,
     Fs.run (whole_run r) fs = Fs.Failed fs' op ->
     exists before after,
       whole_run r = (before ++ op :: after)%list /\
       Fs.run before fs = Fs.Done fs' /\
       Fs.step op fs' = None /\
       (forall p c, In (Fs.Plain (WriteFile p c)) before ->
                    Fs.lookup p fs' = Some (Fs.File (Fs.Text c)))) /\
  (Fs.lookup "tailwind.config.js" fs <> Some Fs.Dir ->
   (forall j, Fs.lookup "app.json" fs = Some (Fs.File (Fs.Document j)) ->
              set_scheme j (appName r) = None) ->
   Fs.run (whole_run r) fs =
   Fs.Failed
     (Fs.set "tailwind.config.js" (Fs.File (Fs.Text (tailwindConfig r))) fs)
     (Fs.EditJson "app.json" (fun j => set_scheme j (appName r)))).
Proof.
  split; [|split].
  - intros before op after fs' Hsplit Hrun Hstep.
    rewrite Hsplit, run_app, Hrun. cbn [Fs.run]. now rewrite Hstep.
  - intros fs' op H.
    destruct (run_failed_split _ _ _ _ H)
      as [before [after [Hops [Hrun Hstep]]]].
    exists before, after. repeat split; trivial.
    intros p c Hin. apply (run_keeps_writes before fs fs' p c); trivial.
    pose proof (whole_run_targets r) as Hnd. rewrite Hops in Hnd.
    unfold targets in Hnd. rewrite flat_map_app in Hnd.
    exact (NoDup_app_remove_r _ _ Hnd).
  - intros Htw Happ. rewrite whole_run_shape. cbn [Fs.run Fs.step].
    rewrite (write_at_root "tailwind.config.js" _ fs eq_refl Htw).
    unfold Fs.editJson. rewrite fs_lookup_set_other by discriminate.
    destruct (Fs.lookup "app.json" fs) as [[[?|j]|]|] eqn:E; try reflexivity.
    now rewrite (Happ j eq_refl).
Qed.

Lemma failure_stops_the_run_witness :
  (exists fs',
     Fs.run (whole_run (demo Inter false None)) scaffold_with_clash
     = Fs.Failed fs' (Fs.Plain (EnsureDir "components/ui")) /\
     Fs.lookup "tailwind.config.js" fs'
     = Some (Fs.File (Fs.Text (tailwindConfig (demo Inter false None)))) /\
     Fs.lookup "app" fs' = Some Fs.Dir /\
     Fs.lookup "constants" fs' = None) /\
  Fs.run (whole_run (demo Inter false None)) scaffold_without_expo =
  Fs.Failed
    (Fs.set "tailwind.config.js"
       (Fs.File (Fs.Text (tailwindConfig (demo Inter false None))))
       scaffold_without_expo)
    (Fs.EditJson "app.json"
       (fun j => set_scheme j (appName (demo Inter false None)))).
Proof.
  split.
  - eexists. split.
    + apply (proj1 (failure_stops_the_run (demo Inter false None)
                      scaffold_with_clash)
               (firstn 3 (whole_run (demo Inter false None)))
               (Fs.Plain (EnsureDir "components/ui"))
               (skipn 4 (whole_run (demo Inter false None))));
        reflexivity.
    + repeat split.
  - apply (proj2 (proj2 (failure_stops_the_run (demo Inter false None)
                           scaffold_without_expo))).
    + discriminate.
    + intros j H. inversion H. reflexivity.
Defined.

(** ** The closing report *)

(** X13.  The report lists [login.tsx] and [signup.tsx] exactly when the plan
    writes them and the [(tabs)] tree exactly when the plan writes the tab
    files; it announces the authentication pages and the tab navigation on
    the same conditions; and it shows the resolved colours, the font and the
    app name. *)
Theorem report_follows_the_plan (r : Response) :
  reports "│   ├── login.tsx        # Login page" r
    = mem_path "app/login.tsx" r /\
  reports "│   ├── signup.tsx       # Signup page" r
    = mem_path "app/signup.tsx" r /\
  reports "│   └── (tabs)/          # Bottom tab navigation" r
    = mem_path "app/(tabs)/_layout.tsx" r /\
  reports "│       ├── index.tsx    # Home tab" r
    = mem_path "app/(tabs)/index.tsx" r /\
  reports "│       ├── explore.tsx  # Explore tab" r
    = mem_path "app/(tabs)/explore.tsx" r /\
  reports "│       ├── notifications.tsx # Notifications tab" r
    = mem_path "app/(tabs)/notifications.tsx" r /\
  reports "│       └── profile.tsx  # Profile tab" r
    = mem_path "app/(tabs)/profile.tsx" r /\
  reports "✅ Authentication pages" r = needsAuth r /\
  reports "✅ Bottom tab navigation" r = truthy (needsBottomTabs r) /\
  In (White, "Primary: " ++ primary (colors r)) (report r) /\
  In (White, "Secondary: " ++ secondary (colors r)) (report r) /\
  In (White, "Font: " ++ font_value (font r)) (report r) /\
  In (White, "cd " ++ appName r) (report r).
Proof.
  unfold reports, mem_path. rewrite paths_shape. unfold report.
  destruct (needsAuth r), (truthy (needsBottomTabs r));
    repeat (split; [reflexivity|]);
    (split; [|split; [|split]]);
    repeat (apply in_or_app; first [left; simpl; tauto | right]);
    simpl; tauto.
Qed.

(** ** Where the generated files import from *)

Lemma prefix_app_left (n l rest : string) :
  prefix n l = true -> prefix n (l ++ rest) = true.
Proof.
  intros H. destruct (prefix_split _ _ H) as [q Hq]. subst l.
  rewrite append_assoc. apply prefix_append.
Qed.

Lemma includes_app_left (n l rest : string) :
  includes n l = true -> includes n (l ++ rest) = true.
Proof.
  induction l as [|c l IH]; cbn [includes].
  - destruct (prefix n "") eqn:E; [|discriminate].
    intros _. apply includes_prefix. now apply prefix_app_left.
  - destruct (prefix n (String c l)) eqn:E.
    + intros _. apply includes_prefix.
      now apply (prefix_app_left n (String c l) rest).
    + intros H. cbn [append includes]. rewrite (IH H).
      now destruct (prefix n (String c (l ++ rest))).
Qed.

(** X14.  Every screen of a plan imports the UI components through a path
    that, joined to the directory of the screen, is [../components/ui]:
    one level above the project root, not the [components/ui] the plan
    writes.  [Text.tsx] likewise looks for the theme in
    [components/constants/theme], while the same import in
    [hooks/useTheme.ts] does reach the planned [constants/theme.ts]. *)
Theorem screens_import_from_above_the_root (r : Response) :
  Forall (fun f =>
            is_screen (fst f) = true ->
            exists specifier,
              includes (tpl ("from ~" ++ specifier ++ "~;")) (snd f) = true /\
              imported (fst f) specifier = "../components/ui")
         (plan r) /\
  (exists p, In p (paths r) /\ is_screen p = true) /\
  In "components/ui/index.ts" (paths r) /\
  includes (tpl "from ~../constants/theme~;") textComponent = true /\
  imported "components/ui/Text.tsx" "../constants/theme"
    = "components/constants/theme" /\
  includes (tpl "from ~../constants/theme~;") useThemeHook = true /\
  imported "hooks/useTheme.ts" "../constants/theme" = "constants/theme" /\
  In "constants/theme.ts" (paths r) /\
  Forall (fun p => prefix "components/constants/" p = false) (paths r).
Proof.
  split; [|split; [|split; [|split; [|split; [|split; [|split; [|split]]]]]]].
  - cbv [plan steps flat_map written app map folders].
    destruct (needsAuth r), (truthy (needsBottomTabs r));
      repeat (apply Forall_cons;
              [cbn [fst snd]; intros H;
               first
                 [ discriminate H
                 | exists "../../components/ui";
                   split; [find_in_head_with includes_app_left | reflexivity]
                 | exists "../../../components/ui";
                   split; [find_in_head_with includes_app_left | reflexivity] ]|]);
      apply Forall_nil.
  - destruct (truthy (needsBottomTabs r)) eqn:Ht.
    + exists "app/(tabs)/index.tsx". split; [|reflexivity].
      rewrite paths_shape, Ht. apply mem_In.
      destruct (needsAuth r); reflexivity.
    + exists "app/index.tsx". split; [|reflexivity].
      rewrite paths_shape, Ht. apply mem_In.
      destruct (needsAuth r); reflexivity.
  - rewrite paths_shape. apply mem_In.
    destruct (needsAuth r), (truthy (needsBottomTabs r)); reflexivity.
  - vm_compute; reflexivity.
  - reflexivity.
  - vm_compute; reflexivity.
  - reflexivity.
  - rewrite paths_shape. apply mem_In.
    destruct (needsAuth r), (truthy (needsBottomTabs r)); reflexivity.
  - rewrite paths_shape.
    destruct (needsAuth r), (truthy (needsBottomTabs r));
      repeat constructor.
Qed.

(** ** Routes the generated files name *)

(** X15.  The root layout declares screens among [login], [signup], [(tabs)]
    and [index] only.  A declared screen has no route in the plan in one
    case only: [(tabs)], when authentication was asked for without tabs; in
    that case the layout does declare [(tabs)] and the plan has no such
    route.  The links between the login and signup pages name planned
    routes. *)
Theorem layout_declares_planned_routes (r : Response) :
  occurrences "<Stack.Screen" (mainLayout r)
    = length (filter (fun n => declares_screen n r)
                     ["login"; "signup"; "(tabs)"; "index"]) /\
  Forall (fun n =>
            declares_screen n r = true -> route_planned n r = false ->
            needsAuth r = true /\ truthy (needsBottomTabs r) = false /\
            n = "(tabs)")
         ["login"; "signup"; "(tabs)"; "index"] /\
  (needsAuth r = true -> truthy (needsBottomTabs r) = false ->
   declares_screen "(tabs)" r = true /\ route_planned "(tabs)" r = false) /\
  (needsAuth r = true ->
   includes (tpl "<Link href=~/signup~ asChild>") loginPage = true /\
   includes (tpl "<Link href=~/login~ asChild>") signupPage = true /\
   route_planned "signup" r = true /\ route_planned "login" r = true).
Proof.
  destruct r as [n f p s a t].
  cbn [needsAuth needsBottomTabs].
  split; [|split; [|split]].
  - destruct f, a, t as [[|]|]; vm_compute; reflexivity.
  - repeat (apply Forall_cons;
            [destruct f, a, t as [[|]|]; vm_compute; intros H1 H2;
             first [discriminate H1 | discriminate H2 | repeat split]|]).
    apply Forall_nil.
  - intros Ha Ht. subst a.
    destruct f, t as [[|]|]; try discriminate Ht; vm_compute; split; reflexivity.
  - intros Ha. subst a.
    destruct t as [[|]|]; vm_compute; repeat split.
Qed.
